(** * The LitLayer trading-key generator: typed-data digest and session store

    A shallow embedding of [key_generator.py] (class [KeyGenerator]).

    Python values are an inductive type, exceptions are an error result, and
    the three things a method can touch outside its arguments (the operating
    system's random source, the clock and the storage directory) are one
    explicit [world] threaded through a state-and-error monad.

    The third-party functions the class imports ([eth_utils.keccak],
    [eth_abi.abi.encode_typed], [eth_keys.datatypes.PrivateKey], [json.dump],
    [json.load]) are not part of the program: they are Section variables, and
    a property of them that a proof needs is a stated hypothesis.

    What the operating system answers when a file is opened for writing
    depends on directories and permissions that the [world] does not record:
    it is a Section variable as well.

    Embedded: [__init__], [generate_trading_key], [prepare_eip712_data],
    [encode_typed_data] with [_encode_domain] and [_encode_message], and the
    three storage methods.  Left out: [submit_exchange_request] (an HTTP
    call) and [sign_eip712_data], whose signature is computed entirely by
    [PrivateKey.sign_msg_hash]. *)

From Stdlib Require Import ZArith QArith_base.
From Stdlib.Strings Require Import Byte Ascii String.
From stdpp Require Import base gmap strings list fin_maps.

Set Warnings "-register-all".

(** ** Python values, exceptions and effects *)

Module Py.

Abbreviation bytes := (list byte).

(** The values the program handles: what [json] can carry ([None], booleans,
    integers, strings, lists, and dictionaries with string keys). *)
Inductive pyval : Type :=
| PNone
| PBool (b : bool)
| PInt (z : Z)
| PStr (s : string)
| PList (l : list pyval)
| PDict (d : gmap string pyval).

Inductive exn : Type :=
| KeyError (key : string)
| TypeError (what : string)
| FileNotFoundError (path : string)
| LibraryError (name : string).

Inductive res (A : Type) : Type :=
| Ok (a : A)
| Raise (e : exn).

Arguments Ok {A} a.
Arguments Raise {A} e.

(** The part of the machine a method can read or change: the bytes the
    random source will deliver ([entropy], of which [drawn] are used up), the
    clock ([time.time()] is a fractional number of seconds), and the regular
    files by path.  A path stands for the file it names, which is exact for
    the plain file names of the flat storage directory this program writes
    into. *)
Record world : Type := World {
  entropy : nat -> byte;
  drawn : nat;
  clock : Q;
  files : gmap string string
}.

Definition M (A : Type) : Type := world -> res A * world.

Definition ret {A : Type} (a : A) : M A := fun w => (Ok a, w).

Definition raise {A : Type} (e : exn) : M A := fun w => (Raise e, w).

Definition lift {A : Type} (r : res A) : M A := fun w => (r, w).

Definition bind {A B : Type} (m : M A) (k : A -> M B) : M B :=
  fun w =>
    match m w with
    | (Ok a, w') => k a w'
    | (Raise e, w') => (Raise e, w')
    end.

Notation "'let!' x ':=' m 'in' k" := (bind m (fun x => k))
  (at level 10, x name, m at level 100, k at level 200).

(** The value a dictionary holds under a key, if any. *)
Definition item (d : pyval) (k : string) : option pyval :=
  match d with
  | PDict m => m !! k
  | _ => None
  end.

(** [d[k]] *)
Definition getitem (d : pyval) (k : string) : M pyval :=
  match d with
  | PDict m =>
      match m !! k with
      | Some v => ret v
      | None => raise (KeyError k)
      end
  | _ => raise (TypeError "object is not subscriptable")
  end.

(** The next [n] bytes the random source will deliver. *)
Definition next_bytes (n : nat) (w : world) : bytes :=
  map (fun i => entropy w (drawn w + i)) (seq 0 n).

(** The world once [n] bytes of the random source are used up. *)
Definition consume (n : nat) (w : world) : world :=
  {| entropy := entropy w; drawn := drawn w + n;
     clock := clock w; files := files w |}.

(** [secrets.token_bytes(n)] *)
Definition secrets_token_bytes (n : nat) : M bytes :=
  fun w => (Ok (next_bytes n w), consume n w).

(** [time.time()] *)
Definition time_time : M Q := fun w => (Ok (clock w), w).

(** [int(x)] on a number with a fractional part: truncation towards zero. *)
Definition py_int (x : Q) : Z := Z.quot (Qnum x) (Z.pos (Qden x)).

Definition startswith_slash (s : string) : bool :=
  match s with
  | String "/" _ => true
  | _ => false
  end.

Fixpoint endswith_slash (s : string) : bool :=
  match s with
  | EmptyString => false
  | String c EmptyString => if Ascii.eqb c "/" then true else false
  | String _ rest => endswith_slash rest
  end.

(** [os.path.join(a, b)] (POSIX): an absolute [b] replaces [a]. *)
Definition os_path_join (a b : string) : string :=
  if startswith_slash b then b
  else if (String.eqb a "" || endswith_slash a)%bool then a +:+ b
  else a +:+ "/" +:+ b.

(** [os.path.exists(p)] *)
Definition os_path_exists (p : string) : M bool :=
  fun w => (Ok (bool_decide (is_Some (files w !! p))), w).

(** [with open(p, "w") as f: f.write(text)].  Whether the file can be
    opened is the operating system's answer, [opens p w]: the call raises
    when a directory on the path is missing ([FileNotFoundError]), when the
    name holds a NUL ([ValueError]) or is too long ([OSError]), and so on.
    An open that is refused leaves the files as they are; one that is
    granted leaves the text in the file. *)
Definition write_text (opens : string -> world -> res unit) (p text : string) : M unit :=
  fun w =>
    match opens p w with
    | Ok _ =>
        (Ok tt,
         {| entropy := entropy w; drawn := drawn w;
            clock := clock w; files := <[p := text]> (files w) |})
    | Raise e => (Raise e, w)
    end.

(** [with open(p, "r") as f: f.read()] *)
Definition read_text (p : string) : M string :=
  fun w =>
    match files w !! p with
    | Some text => (Ok text, w)
    | None => (Raise (FileNotFoundError p), w)
    end.

(** [os.remove(p)] *)
Definition os_remove (p : string) : M unit :=
  fun w =>
    match files w !! p with
    | Some _ =>
        (Ok tt,
         {| entropy := entropy w; drawn := drawn w;
            clock := clock w; files := delete p (files w) |})
    | None => (Raise (FileNotFoundError p), w)
    end.

(** [s.rstrip('/')] *)
Fixpoint rstrip_slash (s : string) : string :=
  match s with
  | EmptyString => EmptyString
  | String c rest =>
      match rstrip_slash rest with
      | EmptyString => if Ascii.eqb c "/" then EmptyString else String c EmptyString
      | kept => String c kept
      end
  end.

(** A computation that neither reads nor changes the world. *)
Definition pure {A : Type} (m : M A) : Prop :=
  forall w1 w2 : world, (m w1).1 = (m w2).1 /\ (m w1).2 = w1.

(** [s.encode()] for a string held as its bytes. *)
Definition utf8 (s : string) : bytes := map byte_of_ascii (list_ascii_of_string s).

End Py.

Import Py.

(** ** The class [KeyGenerator] *)

Module KeyGenerator.

(** The instance attributes set by [__init__]. *)
Record t : Type := Self {
  base_url : string;
  storage_dir : string;
  domain : pyval;
  types : pyval
}.

Definition field (name type : string) : pyval :=
  PDict (<["name" := PStr name]> (<["type" := PStr type]> ∅)).

(** [self.domain] as [__init__] writes it. *)
Definition default_domain : pyval :=
  PDict (<["name" := PStr "LitLayer"]>
        (<["version" := PStr "v1"]>
        (<["chainId" := PInt 42161]>
        (<["verifyingContract" := PStr "0x0000000000000000000000000000000000000000"]>
        (<["salt" := PStr "0x0000000000000000000000000000000000000000000000000000000000000000"]>
         ∅))))).

Definition agent_fields : pyval :=
  PList [ field "litLayer" "string";
          field "agentAddress" "address";
          field "platform" "string";
          field "expiryTime" "uint256" ].

Definition domain_fields : pyval :=
  PList [ field "name" "string";
          field "version" "string";
          field "chainId" "uint256";
          field "verifyingContract" "address";
          field "salt" "bytes32" ].

(** [self.types] as [__init__] writes it. *)
Definition default_types : pyval :=
  PDict (<["Agent" := agent_fields]> (<["EIP712Domain" := domain_fields]> ∅)).

(** [KeyGenerator(base_url)].  The constructor also creates the storage
    directory when it is missing; [files] is the content of that directory
    tree, so the attributes are all that is left to record. *)
Definition __init__ (url : string) : t :=
  {| base_url := rstrip_slash url;
     storage_dir := ".keys";
     domain := default_domain;
     types := default_types |}.

Section Methods.

(** [eth_utils.keccak] *)
Variable keccak : bytes -> bytes.
(** [eth_abi.abi.encode_typed(fields, values)] *)
Variable encode_typed : pyval -> list pyval -> res bytes.
(** [eth_keys.datatypes.PrivateKey]: the class, its constructor from raw
    bytes (which may reject them) and its [to_hex] method. *)
Variable PrivateKey : Type.
Variable PrivateKey_new : bytes -> res PrivateKey.
Variable to_hex : PrivateKey -> string.
(** What the operating system answers to [open(file_path, "w")]. *)
Variable opens : string -> world -> res unit.
(** [json.dump] into a file opened for writing, and [json.load]. *)
Variable json_dump : pyval -> string.
Variable json_load : string -> res pyval.

Definition generate_trading_key (self : t) (agent_address : string) : M string :=
  let! raw := secrets_token_bytes 32 in
  let! private_key := lift (PrivateKey_new raw) in
  ret ("0x" +:+ to_hex private_key).

Definition prepare_eip712_data (self : t) (agent_address : string)
    (platform environment : option string) : M pyval :=
  let platform := default "turbox" platform in
  let environment := default "Devnet" environment in
  let! now := time_time in
  let expiry_time := (py_int now + 86400)%Z in
  let message :=
    PDict (<["litLayer" := PStr environment]>
          (<["agentAddress" := PStr agent_address]>
          (<["platform" := PStr platform]>
          (<["expiryTime" := PInt expiry_time]> ∅)))) in
  ret (PDict (<["domain" := domain self]>
             (<["types" := types self]>
             (<["message" := message]> ∅)))).

Definition _encode_domain (self : t) (domain : pyval) : M bytes :=
  let! fields := getitem (types self) "EIP712Domain" in
  let! name := getitem domain "name" in
  let! version := getitem domain "version" in
  let! chainId := getitem domain "chainId" in
  let! verifyingContract := getitem domain "verifyingContract" in
  let! salt := getitem domain "salt" in
  let! encoded :=
    lift (encode_typed fields [name; version; chainId; verifyingContract; salt]) in
  ret (keccak encoded).

Definition _encode_message (self : t) (types message : pyval) : M bytes :=
  let! fields := getitem types "Agent" in
  let! litLayer := getitem message "litLayer" in
  let! agentAddress := getitem message "agentAddress" in
  let! platform := getitem message "platform" in
  let! expiryTime := getitem message "expiryTime" in
  let! encoded :=
    lift (encode_typed fields [litLayer; agentAddress; platform; expiryTime]) in
  ret (keccak encoded).

Definition encode_typed_data (self : t) (data : pyval) : M bytes :=
  let! domain := getitem data "domain" in
  let! domain_separator := _encode_domain self domain in
  let! types := getitem data "types" in
  let! message := getitem data "message" in
  let! message_hash := _encode_message self types message in
  ret (keccak ([x19; x01] ++ domain_separator ++ message_hash)).

(** [f"{wallet_address}_{session_id}.key"] *)
Definition file_name (wallet_address session_id : string) : string :=
  wallet_address +:+ "_" +:+ session_id +:+ ".key".

(** [os.path.join(self.storage_dir, f"{wallet_address}_{session_id}.key")],
    the [file_path] of the three storage methods. *)
Definition session_file (self : t) (wallet_address session_id : string) : string :=
  os_path_join (storage_dir self) (file_name wallet_address session_id).

Definition save_session_keys (self : t) (wallet_address session_id : string)
    (key_data : pyval) : M unit :=
  let file_path := session_file self wallet_address session_id in
  write_text opens file_path (json_dump key_data).

Definition load_session_keys (self : t) (wallet_address session_id : string) : M pyval :=
  let file_path := session_file self wallet_address session_id in
  let! present := os_path_exists file_path in
  if negb present then ret PNone
  else
    let! text := read_text file_path in
    lift (json_load text).

Definition delete_session_keys (self : t) (wallet_address session_id : string) : M unit :=
  let file_path := session_file self wallet_address session_id in
  let! present := os_path_exists file_path in
  if present then os_remove file_path else ret tt.

End Methods.

End KeyGenerator.

(** ** The specification's vocabulary

    What the specification says about struct hashes, scalars and the store,
    written after its words, to be compared with the methods above. *)

Module Spec.

(** A schema: the [(name, type)] pairs of a struct, in declared order. *)
Definition schema : Type := list (string * string).

Definition field_of (v : pyval) : option (string * string) :=
  match item v "name", item v "type" with
  | Some (PStr name), Some (PStr type) => Some (name, type)
  | _, _ => None
  end.

(** The schema a list of [{"name": ..., "type": ...}] entries declares. *)
Definition schema_of (v : pyval) : option schema :=
  match v with
  | PList entries => mapM field_of entries
  | _ => None
  end.


(** [StructName(type1 name1,type2 name2,...)] *)
Definition type_signature (struct_name : string) (fields : schema) : string :=
  struct_name +:+ "(" +:+
  String.concat "," (map (fun f => f.2 +:+ " " +:+ f.1) fields) +:+ ")".

(** The order of the secp256k1 group. *)
Definition secp256k1_n : Z :=
  0xFFFFFFFFFFFFFFFFFFFFFFFFFFFFFFFEBAAEDCE6AF48A03BBFD25E8CD0364141%Z.

(** The scalar 32 big-endian bytes stand for. *)
Definition be_int (raw : bytes) : Z :=
  fold_left (fun acc b => (acc * 256 + Z.of_N (Byte.to_N b))%Z) raw 0%Z.

Definition valid_scalar (raw : bytes) : Prop :=
  (1 <= be_int raw <= secp256k1_n - 1)%Z.

Section Hashing.

Variable keccak : bytes -> bytes.
(** [encodeValue(type, value)]: the 32-byte encoding of one field. *)
Variable encodeValue : string -> pyval -> bytes.

Definition typeHash (struct_name : string) (fields : schema) : bytes :=
  keccak (utf8 (type_signature struct_name fields)).

(** [typeHash(schema) || concat(encodeValue(field) for field in schema.fields)] *)
Definition encodeData (struct_name : string) (fields : schema)
    (values : list pyval) : bytes :=
  typeHash struct_name fields ++
  concat (zip_with (fun f v => encodeValue f.2 v) fields values).

Definition hashStruct (struct_name : string) (fields : schema)
    (values : list pyval) : bytes :=
  keccak (encodeData struct_name fields values).

(** An encoder that does for the structs called [struct_name] what
    [encodeData] says: given a field list that declares a schema, and as
    many values as the schema has fields, it returns the type hash of the
    struct followed by the encodings of the values. *)
Definition encodes (encode_typed : pyval -> list pyval -> res bytes)
    (struct_name : string) : Prop :=
  forall (declared : pyval) (fields : schema) (values : list pyval),
    schema_of declared = Some fields ->
    length values = length fields ->
    encode_typed declared values = Ok (encodeData struct_name fields values).

End Hashing.



(** One call on the session store. *)
Inductive store_op : Type :=
| Save (wallet_address session_id : string) (record : pyval)
| Delete (wallet_address session_id : string).

(** Python strings as lists of characters. *)
Definition chars (s : string) : list ascii := list_ascii_of_string s.

(** A letter or a digit. *)
Definition alphanumeric (c : ascii) : bool :=
  let n := N_of_ascii c in
  (((48 <=? n) && (n <=? 57)) || ((65 <=? n) && (n <=? 90))
   || ((97 <=? n) && (n <=? 122)))%N.

(** The text of a wallet address or of a session identifier: letters and
    digits only, as in ["0x742d35Cc6634C0532925a3b844Bc454e4438f44e"] and in
    the hexadecimal digits of [secrets.token_hex(16)]. *)
Definition key_text (s : string) : Prop := forallb alphanumeric (chars s) = true.

(** A key [(walletAddress, sessionId)] of the session store. *)
Definition key (wallet_address session_id : string) : Prop :=
  key_text wallet_address /\ key_text session_id.

End Spec.

(** ** Histories of the session store *)

Module Store.

Section History.

Variable opens : string -> world -> res unit.
Variable json_dump : pyval -> string.

Definition apply_op (self : KeyGenerator.t) (op : Spec.store_op) : M unit :=
  match op with
  | Spec.Save wallet_address session_id record =>
      KeyGenerator.save_session_keys opens json_dump self wallet_address session_id
        record
  | Spec.Delete wallet_address session_id =>
      KeyGenerator.delete_session_keys self wallet_address session_id
  end.

(** The world after a sequence of calls on the store, first call first. *)
Fixpoint run_ops (self : KeyGenerator.t) (ops : list Spec.store_op) (w : world) : world :=
  match ops with
  | [] => w
  | op :: rest => run_ops self rest (apply_op self op w).2
  end.

End History.

(** No call of the history saves a record under the key. *)
Definition never_saved (wallet_address session_id : string)
    (ops : list Spec.store_op) : Prop :=
  forall wallet_address' session_id' record,
    Spec.Save wallet_address' session_id' record ∈ ops ->
    (wallet_address', session_id') ≠ (wallet_address, session_id).

(** No call of the history saves a record into the key's file. *)
Definition file_never_saved (wallet_address session_id : string)
    (ops : list Spec.store_op) : Prop :=
  forall wallet_address' session_id' record,
    Spec.Save wallet_address' session_id' record ∈ ops ->
    KeyGenerator.file_name wallet_address' session_id'
      ≠ KeyGenerator.file_name wallet_address session_id.

(** A plain file name: no path separator in it. *)
Definition plain_name (name : string) : Prop := "/"%char ∉ Spec.chars name.

Definition op_name (op : Spec.store_op) : string :=
  match op with
  | Spec.Save wallet_address session_id _ => KeyGenerator.file_name wallet_address session_id
  | Spec.Delete wallet_address session_id => KeyGenerator.file_name wallet_address session_id
  end.

(** A call under a key of the store. *)
Definition on_key (op : Spec.store_op) : Prop :=
  match op with
  | Spec.Save wallet_address session_id _ => Spec.key wallet_address session_id
  | Spec.Delete wallet_address session_id => Spec.key wallet_address session_id
  end.

End Store.

(** ** The claims that fail, as the specification words them *)

Module Stated.


(** Key generation returns a key whose scalar is in [1, n-1], and draws
    again whenever the 32 bytes it drew are outside that range. *)
Definition scalar_in_range_by_redrawing (PrivateKey : Type)
    (PrivateKey_new : bytes -> res PrivateKey)
    (to_hex : PrivateKey -> string) : Prop :=
  (forall (self : KeyGenerator.t) (agent_address key : string) (w w' : world),
      KeyGenerator.generate_trading_key PrivateKey PrivateKey_new to_hex
        self agent_address w = (Ok key, w') ->
      exists raw private_key,
        Spec.valid_scalar raw /\ PrivateKey_new raw = Ok private_key /\
        key = "0x" +:+ to_hex private_key)
  /\
  (forall (self : KeyGenerator.t) (agent_address : string) (w : world),
      ~ Spec.valid_scalar (next_bytes 32 w) ->
      drawn w + 64 <=
      drawn (KeyGenerator.generate_trading_key PrivateKey PrivateKey_new to_hex
               self agent_address w).2).

End Stated.

(** ** Stand-ins for the third-party functions

    Small concrete functions with the interfaces of the imported ones, on
    which the theorems below are run on concrete inputs. *)

Module Standin.

Definition keccak (data : bytes) : bytes := take 32 (data ++ replicate 32 x00).

Definition encodeValue (type : string) (value : pyval) : bytes :=
  match value with
  | PStr s => keccak (utf8 s)
  | PInt z => replicate 31 x00 ++ [x01]
  | _ => replicate 32 x00
  end.

(** An encoder that emits the specification's [encodeData]; it tells the two
    structs apart by the number of values, the struct name not being passed. *)
Definition encode_typed (fields : pyval) (values : list pyval) : res bytes :=
  match Spec.schema_of fields with
  | Some declared =>
      Ok (Spec.encodeData keccak encodeValue
            (if Nat.eqb (length values) 4 then "Agent" else "EIP712Domain")
            declared values)
  | None => Raise (LibraryError "EncodingError")
  end.

Definition hex_digit (n : N) : ascii :=
  nth (N.to_nat n) (Spec.chars "0123456789abcdef") "0"%char.

Definition hex_of_byte (b : byte) : string :=
  String (hex_digit (Byte.to_N b / 16)) (String (hex_digit (Byte.to_N b mod 16)) "").

Definition hex_of_bytes (data : bytes) : string :=
  fold_right (fun b rest => hex_of_byte b +:+ rest) "" data.

(** A key class that keeps the raw bytes and rejects a scalar out of range. *)
Definition PrivateKey : Type := bytes.

Definition PrivateKey_new (raw : bytes) : res PrivateKey :=
  if ((1 <=? Spec.be_int raw) && (Spec.be_int raw <? Spec.secp256k1_n))%Z
  then Ok raw
  else Raise (LibraryError "ValidationError").

Definition to_hex (private_key : PrivateKey) : string := hex_of_bytes private_key.


(** A machine whose storage directory is flat and on which nothing else
    can be opened: a path is granted when it is [.keys/<name>] with no
    further [/] in the name. *)
Definition opens (p : string) (w : world) : res unit :=
  match p with
  | String "." (String "k" (String "e" (String "y" (String "s" (String "/" name))))) =>
      if existsb (Ascii.eqb "/") (Spec.chars name)
      then Raise (FileNotFoundError p)
      else Ok tt
  | _ => Raise (FileNotFoundError p)
  end.

(** A codec that carries string records. *)
Definition json_dump (v : pyval) : string :=
  match v with
  | PStr s => s
  | _ => ""
  end.

Definition json_load (text : string) : res pyval := Ok (PStr text).

(** A world with nothing stored, the clock at [t] and the given entropy. *)
Definition fresh (source : nat -> byte) (t : Q) : world :=
  {| entropy := source; drawn := 0; clock := t; files := ∅ |}.

Definition zeros : nat -> byte := fun _ => x00.

Definition sevens : nat -> byte := fun _ => x07.

(** The message of the example in [main]. *)
Definition example_message : pyval :=
  PDict (<["litLayer" := PStr "Devnet"]>
        (<["agentAddress" := PStr "0xd28ac95d6D5Ba255816043200DD502A8EE5dD03C"]>
        (<["platform" := PStr "turbox"]>
        (<["expiryTime" := PInt 1700086400]> ∅)))).

Definition example_data : pyval :=
  PDict (<["domain" := KeyGenerator.default_domain]>
        (<["types" := KeyGenerator.default_types]>
        (<["message" := example_message]> ∅))).

Definition agent_schema : Spec.schema :=
  [("litLayer", "string"); ("agentAddress", "address");
   ("platform", "string"); ("expiryTime", "uint256")].

Definition example_values : list pyval :=
  [PStr "Devnet"; PStr "0xd28ac95d6D5Ba255816043200DD502A8EE5dD03C";
   PStr "turbox"; PInt 1700086400].

Definition domain_schema : Spec.schema :=
  [("name", "string"); ("version", "string"); ("chainId", "uint256");
   ("verifyingContract", "address"); ("salt", "bytes32")].

Definition domain_values : list pyval :=
  [PStr "LitLayer"; PStr "v1"; PInt 42161;
   PStr "0x0000000000000000000000000000000000000000";
   PStr "0x0000000000000000000000000000000000000000000000000000000000000000"].

(** A world in which the random source is 5 bytes in, the clock reads one
    second and a file is stored. *)
Definition later : world :=
  {| entropy := sevens; drawn := 5; clock := Qmake 1 1;
     files := <["notes.txt" := "kept"]> ∅ |}.



End Standin.

(** ** The rest of the program: signing, the exchange and the market makers

    The methods below raise exceptions of more kinds, send HTTP requests and
    change attributes of their objects, so they run in a second monad: an
    outcome (returned, raised, or blocked for ever on a lock) and a state
    that holds the object next to the machine and the network. *)

Module Builtin.

Inductive raised : Type :=
| Std (e : exn)
| ValueError (msg : string)
| AttributeError (msg : string)
| Exception (msg : string).

Inductive outcome (A : Type) : Type :=
| Returned (a : A)
| Raised (e : raised)
| Blocked.

Arguments Returned {A} a.
Arguments Raised {A} e.
Arguments Blocked {A}.

Definition of_res {A : Type} (r : res A) : outcome A :=
  match r with
  | Ok a => Returned a
  | Raise e => Raised (Std e)
  end.

(** A computation over a state [S]. *)
Definition Prog (S A : Type) : Type := S -> outcome A * S.

Definition pret {S A : Type} (a : A) : Prog S A := fun s => (Returned a, s).

Definition praise {S A : Type} (e : raised) : Prog S A := fun s => (Raised e, s).

Definition plift {S A : Type} (o : outcome A) : Prog S A := fun s => (o, s).

Definition pbind {S A B : Type} (m : Prog S A) (k : A -> Prog S B) : Prog S B :=
  fun s =>
    match m s with
    | (Returned a, s') => k a s'
    | (Raised e, s') => (Raised e, s')
    | (Blocked, s') => (Blocked, s')
    end.

Notation "'let*' x ':=' m 'in' k" := (pbind m (fun x => k))
  (at level 10, x name, m at level 100, k at level 200).

Definition pget {S : Type} : Prog S S := fun s => (Returned s, s).

Definition pmodify {S : Type} (f : S -> S) : Prog S unit := fun s => (Returned tt, f s).

(** Runs a computation of a part of the state inside the whole. *)
Definition zoom {S T A : Type} (part : T -> S) (update : S -> T -> T)
    (m : Prog S A) : Prog T A :=
  fun t => let (o, s') := m (part t) in (o, update s' t).

(** [try: m / except Exception as e: handler(e)], also the bare [except:]:
    every exception of this model is an [Exception]. *)
Definition try_except {S A : Type} (m : Prog S A) (handler : raised -> Prog S A) :
    Prog S A :=
  fun s =>
    match m s with
    | (Raised e, s') => handler e s'
    | other => other
    end.

(** [bool(v)] *)
Definition truthy (v : pyval) : bool :=
  match v with
  | PNone => false
  | PBool b => b
  | PInt z => negb (Z.eqb z 0)
  | PStr s => negb (String.eqb s "")
  | PList l => match l with [] => false | _ :: _ => true end
  | PDict d => negb (Nat.eqb (size d) 0)
  end.

(** [s[2:]] *)
Definition drop2 (s : string) : string :=
  match s with
  | String _ (String _ rest) => rest
  | _ => ""
  end.

Definition hex_value (c : ascii) : option N :=
  let n := N_of_ascii c in
  if ((48 <=? n) && (n <=? 57))%N then Some (n - 48)%N
  else if ((97 <=? n) && (n <=? 102))%N then Some (n - 87)%N
  else if ((65 <=? n) && (n <=? 70))%N then Some (n - 55)%N
  else None.

Definition byte_of_nibbles (hi lo : N) : byte :=
  byte_of_ascii (ascii_of_N (16 * hi + lo)).

(** The bytes [bytes.fromhex(s)] reads, [None] where it raises: two
    hexadecimal digits a byte, ASCII whitespace skipped between bytes. *)
Fixpoint fromhex (s : string) : option bytes :=
  match s with
  | EmptyString => Some []
  | String c rest =>
      if Ascii.is_space c then fromhex rest
      else
        match hex_value c, rest with
        | Some hi, String c' rest' =>
            match hex_value c' with
            | Some lo => cons (byte_of_nibbles hi lo) <$> fromhex rest'
            | None => None
            end
        | _, _ => None
        end
  end.

(** [bytes.fromhex(s)] *)
Definition bytes_fromhex (s : string) : outcome bytes :=
  match fromhex s with
  | Some data => Returned data
  | None => Raised (ValueError "non-hexadecimal number found in fromhex() arg")
  end.

Fixpoint is_prefix (p s : string) : bool :=
  match p, s with
  | EmptyString, _ => true
  | String a p', String b s' => Ascii.eqb a b && is_prefix p' s'
  | String _ _, EmptyString => false
  end.

(** [needle in s] for two strings. *)
Fixpoint is_substring (needle s : string) : bool :=
  is_prefix needle s ||
  match s with
  | EmptyString => false
  | String _ s' => is_substring needle s'
  end.

Definition is_str (needle : string) (v : pyval) : bool :=
  match v with
  | PStr s => String.eqb needle s
  | _ => false
  end.

(** [needle in v] for a string [needle]. *)
Definition py_in (needle : string) (v : pyval) : outcome bool :=
  match v with
  | PDict d => Returned (bool_decide (is_Some (d !! needle)))
  | PList l => Returned (existsb (is_str needle) l)
  | PStr s => Returned (is_substring needle s)
  | _ => Raised (Std (TypeError "argument is not iterable"))
  end.

(** [v[k]] for a string [k]. *)
Definition subscript (v : pyval) (k : string) : outcome pyval :=
  match v with
  | PDict d =>
      match d !! k with
      | Some x => Returned x
      | None => Raised (Std (KeyError k))
      end
  | PNone | PBool _ | PInt _ => Raised (Std (TypeError "object is not subscriptable"))
  | PStr _ | PList _ => Raised (Std (TypeError "indices must be integers"))
  end.

(** [v[k] = x] for a string [k]: the value [v] afterwards. *)
Definition setitem (v : pyval) (k : string) (x : pyval) : outcome pyval :=
  match v with
  | PDict d => Returned (PDict (<[k := x]> d))
  | _ => Raised (Std (TypeError "object does not support item assignment"))
  end.

(** [d.get(k, default)] *)
Definition dict_get (v : pyval) (k : string) (default : pyval) : outcome pyval :=
  match v with
  | PDict d => Returned (from_option id default (d !! k))
  | _ => Raised (AttributeError "object has no attribute 'get'")
  end.

Definition digit_value (c : ascii) : option Z :=
  let n := N_of_ascii c in
  if ((48 <=? n) && (n <=? 57))%N then Some (Z.of_N (n - 48)) else None.

Fixpoint digits_value (acc : Z) (s : string) : option Z :=
  match s with
  | EmptyString => Some acc
  | String c rest =>
      match digit_value c with
      | Some d => digits_value (acc * 10 + d)%Z rest
      | None => None
      end
  end.

(** The value of a non-empty string of at most 4300 decimal digits, the
    strings on which [int(s)] is plain decimal reading. *)
Definition decimal (s : string) : option Z :=
  match s with
  | EmptyString => None
  | _ => if Nat.leb (String.length s) 4300 then digits_value 0 s else None
  end.

(** Dictionaries whose keys are not all strings, in insertion order: a list
    of entries with one entry a key. *)
Definition hashable (v : pyval) : bool :=
  match v with
  | PList _ | PDict _ => false
  | _ => true
  end.

Definition number_of (v : pyval) : option Z :=
  match v with
  | PInt z => Some z
  | PBool b => Some (if b then 1 else 0)%Z
  | _ => None
  end.

(** [a == b] for two keys; [True] and [1] are one key. *)
Definition key_eqb (a b : pyval) : bool :=
  match a, b with
  | PNone, PNone => true
  | PStr s, PStr t => String.eqb s t
  | _, _ =>
      match number_of a, number_of b with
      | Some x, Some y => Z.eqb x y
      | _, _ => false
      end
  end.

Definition entries_has (k : pyval) (d : list (pyval * pyval)) : bool :=
  existsb (fun e => key_eqb k e.1) d.

(** [del d[k]] for a key that is there. *)
Definition entries_del (k : pyval) (d : list (pyval * pyval)) : list (pyval * pyval) :=
  filter (fun e => negb (key_eqb k e.1)) d.

(** [d[k] = v]: the entry of [k] gets the value, or a new last entry is made. *)
Definition entries_put (k v : pyval) (d : list (pyval * pyval)) : list (pyval * pyval) :=
  if entries_has k d
  then map (fun e => if key_eqb k e.1 then (e.1, v) else e) d
  else d ++ [(k, v)].

Definition unhashable {A : Type} : outcome A :=
  Raised (Std (TypeError "unhashable type")).

End Builtin.

Import Builtin.

(** ** The third-party and floating-point functions, in one record *)

Module Library.

Record t : Type := Make {
  (** [eth_utils.keccak] *)
  keccak : bytes -> bytes;
  (** [eth_abi.abi.encode_typed] *)
  encode_typed : pyval -> list pyval -> res bytes;
  (** [eth_keys.datatypes.PrivateKey], its constructor and [to_hex] *)
  PrivateKey : Type;
  PrivateKey_new : bytes -> res PrivateKey;
  to_hex : PrivateKey -> string;
  (** [PrivateKey.sign_msg_hash] and the signature's [to_hex] *)
  Signature : Type;
  sign_msg_hash : PrivateKey -> bytes -> res Signature;
  signature_to_hex : Signature -> string;
  (** [str(v)] for a value that is not a string *)
  render : pyval -> string;
  (** [int(s)] for a string that is not all decimal digits *)
  int_of_text : string -> outcome Z;
  (** [str(n * 0.99)], a floating-point product *)
  str_of_99_percent : Z -> string;
  (** [abs(a - b) / b > 0.02], a floating-point quotient; [b = 0] raises *)
  moved_2_percent : Z -> Z -> outcome bool
}.

(** [str(v)], as an f-string renders [v]. *)
Definition py_str (L : t) (v : pyval) : string :=
  match v with
  | PStr s => s
  | _ => render L v
  end.

(** [int(s)] for a string. *)
Definition int_of_str (L : t) (s : string) : outcome Z :=
  match decimal s with
  | Some z => Returned z
  | None => int_of_text L s
  end.

(** [int(v)] *)
Definition int_of (L : t) (v : pyval) : outcome Z :=
  match v with
  | PInt z => Returned z
  | PBool b => Returned (if b then 1 else 0)%Z
  | PStr s => int_of_str L s
  | _ => Raised (Std (TypeError "int() argument must be a string or a number"))
  end.

End Library.

(** ** HTTP *)

Module Http.

Record request : Type := Request {
  method : string;
  url : string;
  json : pyval;
  headers : pyval
}.

(** A response: [status_code], [text], and what [json()] gives. *)
Record response : Type := Response {
  status_code : Z;
  text : string;
  body : res pyval
}.

(** The process: the machine, the requests sent so far (first one first),
    and the network, which answers a request knowing the earlier ones, or
    fails. *)
Record process : Type := Process {
  machine : world;
  outbox : list request;
  network : list request -> request -> res response
}.

(** A method of the first part, run in the process. *)
Definition from_M {A : Type} (m : M A) : Prog process A :=
  fun p =>
    let (r, w') := m (machine p) in
    (of_res r, {| machine := w'; outbox := outbox p; network := network p |}).

(** [requests.request(method, url, json=json, headers=headers)] *)
Definition requests_request (method url : string) (json headers : pyval) :
    Prog process response :=
  fun p =>
    let sent := {| method := method; url := url; json := json; headers := headers |} in
    (of_res (network p (outbox p) sent),
     {| machine := machine p; outbox := outbox p ++ [sent]; network := network p |}).

(** [requests.post(url, json=json, headers=headers)] *)
Definition requests_post (url : string) (json headers : pyval) : Prog process response :=
  requests_request "POST" url json headers.

End Http.

Import Http.

(** An object next to the process: the state of its methods. *)

Definition this {T : Type} : Prog (T * process) T := fun s => (Returned s.1, s).

Definition in_process {T A : Type} (m : Prog process A) : Prog (T * process) A :=
  zoom snd (fun p s => (s.1, p)) m.

Definition set_this {T : Type} (f : T -> T) : Prog (T * process) unit :=
  pmodify (fun s => (f s.1, s.2)).

(** ** [KeyGenerator]: signing and the exchange request *)

Module KeyGeneratorNet.

Section Methods.

Variable L : Library.t.

Definition sign_eip712_data (self : KeyGenerator.t) (eip712_data : pyval)
    (private_key : string) : Prog process string :=
  let* private_key_bytes := plift (bytes_fromhex (drop2 private_key)) in
  let* private_key_obj := plift (of_res (Library.PrivateKey_new L private_key_bytes)) in
  let* encoded_data :=
    from_M (KeyGenerator.encode_typed_data (Library.keccak L) (Library.encode_typed L)
              self eip712_data) in
  let* signature := plift (of_res (Library.sign_msg_hash L private_key_obj encoded_data)) in
  pret (Library.signature_to_hex L signature).

(** The message of the exception raised on a status other than 200:
    [[
    error_msg = fallback
    try:
        error_data = response.json()
        if "error" in error_data:
            error_msg = f"{prefix}{error_data['error']}"
    except:
        pass
    ]] *)
Definition error_message (fallback prefix : string) (r : response) : string :=
  match of_res (body r) with
  | Returned error_data =>
      match py_in "error" error_data with
      | Returned true =>
          match subscript error_data "error" with
          | Returned detail => prefix +:+ Library.py_str L detail
          | _ => fallback
          end
      | _ => fallback
      end
  | _ => fallback
  end.

Definition submit_exchange_request (self : KeyGenerator.t)
    (agent_address platform : string) (chain_id expiry_time : Z)
    (signature api_key : string) : Prog process pyval :=
  let payload :=
    PDict (<["proxy_address" := PStr agent_address]>
          (<["platform" := PStr platform]>
          (<["chain_id" := PInt chain_id]>
          (<["expiry_time" := PInt expiry_time]>
          (<["signature" := PStr signature]> ∅))))) in
  let url := KeyGenerator.base_url self +:+ "/v1/exchange" in
  let headers :=
    PDict (<["Content-Type" := PStr "application/json"]>
          (<["X-API-Key" := PStr api_key]> ∅)) in
  let* response := requests_post url payload headers in
  if negb (Z.eqb (status_code response) 200) then
    praise (Exception
              (error_message ("Failed to submit exchange request: " +:+ text response)
                 "Exchange request failed: " response))
  else plift (of_res (body response)).

End Methods.

End KeyGeneratorNet.

(** ** The class [LitLayerRestClient] *)

Module LitLayerRestClient.

Record t : Type := Self {
  base_url : string;
  api_key : option string;
  key_generator : KeyGenerator.t;
  session_data : pyval
}.

Definition state : Type := t * process.

(** [not s] for an attribute that is a string or [None]. *)
Definition unset (s : option string) : bool :=
  match s with
  | Some text => String.eqb text ""
  | None => true
  end.

Definition __init__ (base_url api_key : option string) : t :=
  let base_url := default "https://api.litlayer.com" base_url in
  {| base_url := rstrip_slash base_url;
     api_key := api_key;
     key_generator := KeyGenerator.__init__ base_url;
     session_data := PNone |}.

Definition set_session_data (v : pyval) : Prog state unit :=
  set_this (fun self =>
    {| base_url := base_url self; api_key := api_key self;
       key_generator := key_generator self; session_data := v |}).

Section Methods.

Variable L : Library.t.

Definition generate_session (wallet_address agent_address : string) : Prog state pyval :=
  let* self := this in
  let* trading_key :=
    in_process (from_M
      (KeyGenerator.generate_trading_key (Library.PrivateKey L)
         (Library.PrivateKey_new L) (Library.to_hex L)
         (key_generator self) agent_address)) in
  let* eip712_data :=
    in_process (from_M
      (KeyGenerator.prepare_eip712_data (key_generator self) agent_address
         (Some "turbox") (Some "Devnet"))) in
  let* signature :=
    in_process (KeyGeneratorNet.sign_eip712_data L (key_generator self)
                  eip712_data trading_key) in
  let session :=
    PDict (<["wallet_address" := PStr wallet_address]>
          (<["agent_address" := PStr agent_address]>
          (<["trading_key" := PStr trading_key]>
          (<["eip712_data" := eip712_data]>
          (<["signature" := PStr signature]> ∅))))) in
  let* _ := set_session_data session in
  pret session.

Definition make_signed_request (method endpoint : string) (payload : pyval)
    (use_session : bool) : Prog state pyval :=
  let* self := this in
  match api_key self with
  | Some key =>
      if String.eqb key "" then praise (Exception "API key not set")
      else
        let url := base_url self +:+ "/" +:+ endpoint in
        let headers :=
          PDict (<["Content-Type" := PStr "application/json"]>
                (<["X-API-Key" := PStr key]> ∅)) in
        let* payload :=
          if (use_session && truthy (session_data self))%bool then
            let* signature := plift (subscript (session_data self) "signature") in
            plift (setitem payload "signature" signature)
          else pret payload in
        let* response := in_process (requests_request method url payload headers) in
        if negb (Z.eqb (status_code response) 200) then
          praise (Exception
                    (KeyGeneratorNet.error_message L
                       ("Request failed: " +:+ text response) "API error: " response))
        else plift (of_res (body response))
  | None => praise (Exception "API key not set")
  end.

Definition submit_withdrawal (token_address amount recipient_address : string) :
    Prog state pyval :=
  let payload :=
    PDict (<["token_address" := PStr token_address]>
          (<["amount" := PStr amount]>
          (<["recipient_address" := PStr recipient_address]> ∅))) in
  make_signed_request "POST" "v1/withdraw/submit" payload true.

Definition create_order (token_in token_out amount_in min_amount_out : string)
    (is_market : bool) : Prog state pyval :=
  let payload :=
    PDict (<["token_in" := PStr token_in]>
          (<["token_out" := PStr token_out]>
          (<["amount_in" := PStr amount_in]>
          (<["min_amount_out" := PStr min_amount_out]>
          (<["is_market" := PBool is_market]> ∅))))) in
  make_signed_request "POST" "v1/order/create" payload true.

End Methods.

End LitLayerRestClient.

(** ** The class [MMAuction]

    The web application the constructor builds and the two handlers it
    serves are left out; what is embedded is the object's own attributes and
    the registration call. *)

Module MMAuction.

Record t : Type := Self {
  base_url : string;
  api_key : option string;
  mm_endpoint : option string;
  client : LitLayerRestClient.t;
  session_data : pyval
}.

Definition state : Type := t * process.

Definition __init__ (base_url api_key mm_endpoint : option string) : t :=
  let base_url := default "https://api.litlayer.com" base_url in
  {| base_url := rstrip_slash base_url;
     api_key := api_key;
     mm_endpoint := mm_endpoint;
     client := LitLayerRestClient.__init__ (Some base_url) api_key;
     session_data := PNone |}.

(** A method of [self.client], run on the client the object holds. *)
Definition in_client {A : Type} (m : Prog LitLayerRestClient.state A) : Prog state A :=
  zoom (fun s => (client s.1, s.2))
       (fun cs s =>
          ({| base_url := base_url s.1; api_key := api_key s.1;
              mm_endpoint := mm_endpoint s.1; client := cs.1;
              session_data := session_data s.1 |}, cs.2))
       m.

Section Methods.

Variable L : Library.t.

Definition register_mm_endpoint (agent_address mm_endpoint : string) : Prog state pyval :=
  let* self := this in
  if negb (truthy (session_data self)) then
    praise (Exception "Session not initialized. Call generate_session first.")
  else
    let payload :=
      PDict (<["mm_endpoint" := PStr mm_endpoint]>
            (<["agent_address" := PStr agent_address]> ∅)) in
    in_client (LitLayerRestClient.make_signed_request L "POST"
                 (agent_address +:+ "/register") payload true).

End Methods.

End MMAuction.

(** ** The class [OrderBookMM]

    The coroutines are embedded as the sequential code they are between two
    points where they can be suspended; the only such point inside them that
    matters is the acquisition of [self._lock], which is [Blocked] when the
    lock is held.  Printing is left out. *)

Module OrderBookMM.

Record OrderConfig : Type := Config {
  token_in : string;
  token_out : string;
  min_order_size : string;
  max_order_size : string;
  price_spread : Q;
  max_orders : Z
}.

Record MarketData : Type := Market {
  timestamp : Z;
  best_bid : string;
  best_ask : string;
  last_price : string;
  volume_24h : string
}.

(** The attributes.  [pending_order_task] and [cancel_order_task] are the
    instance attributes [__init__] sets to [None]: on an instance they hide
    the two methods of the same names. *)
Record t : Type := Self {
  base_url : string;
  api_key : option string;
  wallet_address : option string;
  agent_address : option string;
  order_config : option OrderConfig;
  pending_order_interval : Z;
  cancel_order_interval : Z;
  client : LitLayerRestClient.t;
  session_data : pyval;
  active_orders : list (pyval * pyval);
  market_data : option MarketData;
  inventory : gmap string string;
  running : bool;
  pending_order_task : pyval;
  cancel_order_task : pyval;
  _lock : bool
}.

Definition state : Type := t * process.

Definition __init__ (base_url api_key wallet_address agent_address : option string)
    (order_config : option OrderConfig)
    (pending_order_interval cancel_order_interval : option Z) : t :=
  let base_url := default "https://api.litlayer.com" base_url in
  {| base_url := base_url;
     api_key := api_key;
     wallet_address := wallet_address;
     agent_address := agent_address;
     order_config := order_config;
     pending_order_interval := default 30%Z pending_order_interval;
     cancel_order_interval := default 10%Z cancel_order_interval;
     client := LitLayerRestClient.__init__ (Some base_url) api_key;
     session_data := PNone;
     active_orders := [];
     market_data := None;
     inventory := ∅;
     running := false;
     pending_order_task := PNone;
     cancel_order_task := PNone;
     _lock := false |}.

Definition with_client (c : LitLayerRestClient.t) (self : t) : t :=
  {| base_url := base_url self; api_key := api_key self;
     wallet_address := wallet_address self; agent_address := agent_address self;
     order_config := order_config self;
     pending_order_interval := pending_order_interval self;
     cancel_order_interval := cancel_order_interval self;
     client := c; session_data := session_data self;
     active_orders := active_orders self; market_data := market_data self;
     inventory := inventory self; running := running self;
     pending_order_task := pending_order_task self;
     cancel_order_task := cancel_order_task self; _lock := _lock self |}.

Definition with_session_data (v : pyval) (self : t) : t :=
  {| base_url := base_url self; api_key := api_key self;
     wallet_address := wallet_address self; agent_address := agent_address self;
     order_config := order_config self;
     pending_order_interval := pending_order_interval self;
     cancel_order_interval := cancel_order_interval self;
     client := client self; session_data := v;
     active_orders := active_orders self; market_data := market_data self;
     inventory := inventory self; running := running self;
     pending_order_task := pending_order_task self;
     cancel_order_task := cancel_order_task self; _lock := _lock self |}.

Definition with_active_orders (d : list (pyval * pyval)) (self : t) : t :=
  {| base_url := base_url self; api_key := api_key self;
     wallet_address := wallet_address self; agent_address := agent_address self;
     order_config := order_config self;
     pending_order_interval := pending_order_interval self;
     cancel_order_interval := cancel_order_interval self;
     client := client self; session_data := session_data self;
     active_orders := d; market_data := market_data self;
     inventory := inventory self; running := running self;
     pending_order_task := pending_order_task self;
     cancel_order_task := cancel_order_task self; _lock := _lock self |}.

Definition with_market_data (m : option MarketData) (self : t) : t :=
  {| base_url := base_url self; api_key := api_key self;
     wallet_address := wallet_address self; agent_address := agent_address self;
     order_config := order_config self;
     pending_order_interval := pending_order_interval self;
     cancel_order_interval := cancel_order_interval self;
     client := client self; session_data := session_data self;
     active_orders := active_orders self; market_data := m;
     inventory := inventory self; running := running self;
     pending_order_task := pending_order_task self;
     cancel_order_task := cancel_order_task self; _lock := _lock self |}.

Definition with_inventory (i : gmap string string) (self : t) : t :=
  {| base_url := base_url self; api_key := api_key self;
     wallet_address := wallet_address self; agent_address := agent_address self;
     order_config := order_config self;
     pending_order_interval := pending_order_interval self;
     cancel_order_interval := cancel_order_interval self;
     client := client self; session_data := session_data self;
     active_orders := active_orders self; market_data := market_data self;
     inventory := i; running := running self;
     pending_order_task := pending_order_task self;
     cancel_order_task := cancel_order_task self; _lock := _lock self |}.

Definition with_running (b : bool) (self : t) : t :=
  {| base_url := base_url self; api_key := api_key self;
     wallet_address := wallet_address self; agent_address := agent_address self;
     order_config := order_config self;
     pending_order_interval := pending_order_interval self;
     cancel_order_interval := cancel_order_interval self;
     client := client self; session_data := session_data self;
     active_orders := active_orders self; market_data := market_data self;
     inventory := inventory self; running := b;
     pending_order_task := pending_order_task self;
     cancel_order_task := cancel_order_task self; _lock := _lock self |}.

Definition with_lock_held (b : bool) (self : t) : t :=
  {| base_url := base_url self; api_key := api_key self;
     wallet_address := wallet_address self; agent_address := agent_address self;
     order_config := order_config self;
     pending_order_interval := pending_order_interval self;
     cancel_order_interval := cancel_order_interval self;
     client := client self; session_data := session_data self;
     active_orders := active_orders self; market_data := market_data self;
     inventory := inventory self; running := running self;
     pending_order_task := pending_order_task self;
     cancel_order_task := cancel_order_task self; _lock := b |}.

(** A method of [self.client], run on the client the object holds. *)
Definition in_client {A : Type} (m : Prog LitLayerRestClient.state A) : Prog state A :=
  zoom (fun s => (client s.1, s.2)) (fun cs s => (with_client cs.1 s.1, cs.2)) m.

(** [async with self._lock: body].  The lock is not re-entrant: it is
    acquired only when free, and released when the body returns or raises. *)
Definition async_with_lock {A : Type} (body : Prog state A) : Prog state A :=
  fun s =>
    if _lock s.1 then (Blocked, s)
    else
      match body (with_lock_held true s.1, s.2) with
      | (Blocked, s') => (Blocked, s')
      | (o, s') => (o, (with_lock_held false s'.1, s'.2))
      end.

(** [await v] for a value that is no coroutine, task or future. *)
Definition await_value {A : Type} (v : pyval) : Prog state A :=
  praise (Std (TypeError "object can't be used in 'await' expression")).

(** [v()] for a value that is no function. *)
Definition call_value {A : Type} (v : pyval) : Prog state A :=
  praise (Std (TypeError "object is not callable")).

(** [self.order_config.<name>]: the configuration, when there is one. *)
Definition config_attr (name : string) : Prog state OrderConfig :=
  let* self := this in
  match order_config self with
  | Some config => pret config
  | None => praise (AttributeError ("'NoneType' object has no attribute '" +:+ name +:+ "'"))
  end.

(** [self.market_data.last_price] *)
Definition market_last_price : Prog state string :=
  let* self := this in
  match market_data self with
  | Some data => pret (last_price data)
  | None => praise (AttributeError "'NoneType' object has no attribute 'last_price'")
  end.

(** [for x in items: body(x)] *)
Fixpoint for_each {X : Type} (items : list X) (body : X -> Prog state unit) :
    Prog state unit :=
  match items with
  | [] => pret tt
  | x :: rest => let* _ := body x in for_each rest body
  end.

Section Methods.

Variable L : Library.t.

Definition generate_session : Prog state pyval :=
  let* self := this in
  match wallet_address self, agent_address self with
  | Some wallet, Some agent =>
      if (String.eqb wallet "" || String.eqb agent "")%bool
      then praise (Exception "Wallet address and agent address must be set")
      else
        let* session := in_client (LitLayerRestClient.generate_session L wallet agent) in
        let* _ := set_this (with_session_data session) in
        pret session
  | _, _ => praise (Exception "Wallet address and agent address must be set")
  end.

Definition check_inventory : Prog state (gmap string string) :=
  let* config := config_attr "token_in" in
  pret (<[token_out config := "2000000000"]>
        (<[token_in config := "10000000000000000000"]> ∅)).

Definition get_market_data : Prog state MarketData :=
  let* now := in_process (from_M time_time) in
  pret {| timestamp := py_int now;
          best_bid := "1750000000";
          best_ask := "1850000000";
          last_price := "1800000000";
          volume_24h := "100000000000000000000" |}.

Definition place_order (token_in token_out amount_in min_amount_out : string)
    (is_market : bool) : Prog state pyval :=
  let* order :=
    in_client (LitLayerRestClient.create_order L token_in token_out amount_in
                 min_amount_out is_market) in
  await_value order.

Definition cancel_order (order_id : pyval) : Prog state pyval :=
  let* _ :=
    async_with_lock
      (let* self := this in
       if negb (hashable order_id) then plift unhashable
       else if entries_has order_id (active_orders self)
       then set_this (with_active_orders (entries_del order_id (active_orders self)))
       else pret tt) in
  pret (PDict (<["status" := PStr "cancelled"]> (<["order_id" := order_id]> ∅))).

(** One round of [while self.running:] in the method [pending_order_task],
    up to the sleep that ends it. *)
Definition pending_order_round : Prog state unit :=
  try_except
    (let* stock := check_inventory in
     let* _ := set_this (with_inventory stock) in
     let* data := get_market_data in
     let* _ := set_this (with_market_data (Some data)) in
     async_with_lock
       (let* self := this in
        let* config := config_attr "max_orders" in
        if (Z.of_nat (length (active_orders self)) <? max_orders config)%Z then
          let* price_text := market_last_price in
          let* price := plift (Library.int_of_str L price_text) in
          let* order :=
            place_order (token_in config) (token_out config) (min_order_size config)
              (Library.str_of_99_percent L price) false in
          let* has_id := plift (py_in "order_id" order) in
          if has_id then
            let* id := plift (subscript order "order_id") in
            if hashable id then
              let* self := this in
              set_this (with_active_orders (entries_put id order (active_orders self)))
            else plift unhashable
          else pret tt
        else pret tt))
    (fun e => pret tt).

(** One round of [while self.running:] in the method [cancel_order_task],
    up to the sleep that ends it. *)
Definition cancel_order_round : Prog state unit :=
  try_except
    (let* data := get_market_data in
     let* _ := set_this (with_market_data (Some data)) in
     async_with_lock
       (let* self := this in
        for_each (active_orders self)
          (fun entry =>
             let* quoted := plift (dict_get entry.2 "price" (PInt 0)) in
             let* order_price := plift (Library.int_of L quoted) in
             let* price_text := market_last_price in
             let* current_price := plift (Library.int_of_str L price_text) in
             let* moved := plift (Library.moved_2_percent L order_price current_price) in
             if moved then
               let* _ := cancel_order entry.1 in pret tt
             else pret tt)))
    (fun e => pret tt).

(** [start], as far as it runs: the attribute [self.pending_order_task] it
    calls holds a value, not the method, and the call raises; the statements
    after the call are never reached. *)
Definition start : Prog state unit :=
  let* self := this in
  let* _ :=
    if negb (truthy (session_data self))
    then let* _ := generate_session in pret tt
    else pret tt in
  let* _ := set_this (with_running true) in
  let* self := this in
  call_value (pending_order_task self).

(** [t.cancel()] for a value that is no task. *)
Definition cancel_task (v : pyval) : Prog state unit :=
  praise (AttributeError "object has no attribute 'cancel'").

Definition stop : Prog state unit :=
  let* _ := set_this (with_running false) in
  let* self := this in
  let* _ :=
    if truthy (pending_order_task self) then cancel_task (pending_order_task self)
    else pret tt in
  let* self := this in
  if truthy (cancel_order_task self) then cancel_task (cancel_order_task self)
  else pret tt.

End Methods.

End OrderBookMM.

(** [k] slashes. *)
Definition slashes (k : nat) : string := string_of_list_ascii (replicate k "/"%char).

(** ** Stand-ins for the second part *)

Module Fixture.

Definition sign_msg_hash (private_key : Standin.PrivateKey) (digest : bytes) : res bytes :=
  if Nat.eqb (length digest) 32 then Ok (private_key ++ digest)
  else Raise (LibraryError "ValidationError").

(** The exact comparison [50 * |a - b| > |b|], for the floating-point one. *)
Definition moved_2_percent (a b : Z) : outcome bool :=
  if Z.eqb b 0 then Raised (Std (LibraryError "ZeroDivisionError"))
  else Returned (Z.abs b <? 50 * Z.abs (a - b))%Z.

(** A library whose key class renders a key as plain hexadecimal digits. *)
Definition library : Library.t :=
  {| Library.keccak := Standin.keccak;
     Library.encode_typed := Standin.encode_typed;
     Library.PrivateKey := Standin.PrivateKey;
     Library.PrivateKey_new := Standin.PrivateKey_new;
     Library.to_hex := Standin.to_hex;
     Library.Signature := bytes;
     Library.sign_msg_hash := sign_msg_hash;
     Library.signature_to_hex := fun s => "0x" +:+ Standin.hex_of_bytes s;
     Library.render := fun _ => "<value>";
     Library.int_of_text := fun _ => Raised (ValueError "invalid literal for int()");
     Library.str_of_99_percent := fun _ => "1782000000.0";
     Library.moved_2_percent := moved_2_percent |}.

(** The same library with a key class that renders a key with a [0x] in
    front of the digits. *)
Definition prefixed_library : Library.t :=
  {| Library.keccak := Standin.keccak;
     Library.encode_typed := Standin.encode_typed;
     Library.PrivateKey := Standin.PrivateKey;
     Library.PrivateKey_new := Standin.PrivateKey_new;
     Library.to_hex := fun private_key => "0x" +:+ Standin.to_hex private_key;
     Library.Signature := bytes;
     Library.sign_msg_hash := sign_msg_hash;
     Library.signature_to_hex := fun s => "0x" +:+ Standin.hex_of_bytes s;
     Library.render := fun _ => "<value>";
     Library.int_of_text := fun _ => Raised (ValueError "invalid literal for int()");
     Library.str_of_99_percent := fun _ => "1782000000.0";
     Library.moved_2_percent := moved_2_percent |}.

(** An exchange that accepts every request and names an order. *)
Definition accepting : list request -> request -> res response :=
  fun _ _ =>
    Ok {| status_code := 200; text := "accepted";
          body := Ok (PDict (<["order_id" := PStr "7"]> ∅)) |}.

(** An exchange that refuses every request and says why. *)
Definition refusing : list request -> request -> res response :=
  fun _ _ =>
    Ok {| status_code := 400; text := "refused";
          body := Ok (PDict (<["error" := PStr "bad signature"]> ∅)) |}.

Definition fresh_process (answers : list request -> request -> res response) : process :=
  {| machine := Standin.later; outbox := []; network := answers |}.

Definition client : LitLayerRestClient.t :=
  LitLayerRestClient.__init__ (Some "https://api.litlayer.com/") (Some "secret").

(** A client that holds a session. *)
Definition client_in_session : LitLayerRestClient.t :=
  {| LitLayerRestClient.base_url := "https://api.litlayer.com";
     LitLayerRestClient.api_key := Some "secret";
     LitLayerRestClient.key_generator := KeyGenerator.__init__ "https://api.litlayer.com";
     LitLayerRestClient.session_data :=
       PDict (<["agent_address" := PStr "0xd28a"]> (<["signature" := PStr "0x5157"]> ∅)) |}.

Definition config : OrderBookMM.OrderConfig :=
  {| OrderBookMM.token_in := "0x82aF"; OrderBookMM.token_out := "0xFF97";
     OrderBookMM.min_order_size := "100000000000000000";
     OrderBookMM.max_order_size := "1000000000000000000";
     OrderBookMM.price_spread := Qmake 1 50;
     OrderBookMM.max_orders := 5 |}.

Definition market_maker : OrderBookMM.t :=
  OrderBookMM.__init__ (Some "https://api.litlayer.com") (Some "secret")
    (Some "0x742d") (Some "0xd28a") (Some config) None None.

(** An auction whose own [session_data] was set by hand; its client holds
    no session. *)
Definition auction_in_session : MMAuction.t :=
  {| MMAuction.base_url := "https://api.litlayer.com";
     MMAuction.api_key := Some "secret";
     MMAuction.mm_endpoint := Some "https://mm.example/auction";
     MMAuction.client := client;
     MMAuction.session_data := PDict (<["signature" := PStr "0x5157"]> ∅) |}.

(** A market maker that holds one order, which quotes no price. *)
Definition market_maker_with_order : OrderBookMM.t :=
  OrderBookMM.with_active_orders
    [(PStr "7", PDict (<["order_id" := PStr "7"]> ∅))] market_maker.

End Fixture.

(** ** The states and requests the client's calls leave behind *)

(** The process once the 32 bytes of a key are drawn. *)
Definition after_draw (p : process) : process :=
  {| machine := consume 32 (machine p); outbox := outbox p; network := network p |}.

(** The data [prepare_eip712_data] returns for the client's fixed platform
    and environment. *)
Definition prepared (self : KeyGenerator.t) (agent_address : string) (w : world) : pyval :=
  PDict (<["domain" := KeyGenerator.domain self]>
        (<["types" := KeyGenerator.types self]>
        (<["message" :=
             PDict (<["litLayer" := PStr "Devnet"]>
                   (<["agentAddress" := PStr agent_address]>
                   (<["platform" := PStr "turbox"]>
                   (<["expiryTime" := PInt (py_int (clock w) + 86400)]> ∅))))]> ∅))).

(** The session dictionary. *)
Definition session_of (wallet_address agent_address trading_key : string)
    (eip712_data : pyval) (signature : string) : pyval :=
  PDict (<["wallet_address" := PStr wallet_address]>
        (<["agent_address" := PStr agent_address]>
        (<["trading_key" := PStr trading_key]>
        (<["eip712_data" := eip712_data]>
        (<["signature" := PStr signature]> ∅))))).

Definition with_session (session : pyval) (c : LitLayerRestClient.t) : LitLayerRestClient.t :=
  {| LitLayerRestClient.base_url := LitLayerRestClient.base_url c;
     LitLayerRestClient.api_key := LitLayerRestClient.api_key c;
     LitLayerRestClient.key_generator := LitLayerRestClient.key_generator c;
     LitLayerRestClient.session_data := session |}.

(** The request a signed call sends. *)
Definition sent_request (c : LitLayerRestClient.t) (key method endpoint : string)
    (json : pyval) : request :=
  {| method := method;
     url := LitLayerRestClient.base_url c +:+ "/" +:+ endpoint;
     json := json;
     headers := PDict (<["Content-Type" := PStr "application/json"]>
                      (<["X-API-Key" := PStr key]> ∅)) |}.

Definition after_sending (rq : request) (p : process) : process :=
  {| machine := machine p; outbox := outbox p ++ [rq]; network := network p |}.

(** ** Laws of the monad and of the primitives *)

Section MonadLaws.

Context {A B : Type}.

Lemma bind_ok (m : M A) (k : A -> M B) (w w' : world) (a : A) :
  m w = (Ok a, w') -> bind m k w = k a w'.
Proof. intros Hm. unfold bind. now rewrite Hm. Qed.


Lemma bind_inv (m : M A) (k : A -> M B) (w w' : world) (b : B) :
  bind m k w = (Ok b, w') ->
  exists a w1, m w = (Ok a, w1) /\ k a w1 = (Ok b, w').
Proof.
  unfold bind. destruct (m w) as [[a|e] w1]; intros Hk.
  - exists a, w1. split; [reflexivity | exact Hk].
  - discriminate Hk.
Qed.

Lemma lift_ok (r : res A) (a : A) (w : world) : r = Ok a -> lift r w = (Ok a, w).
Proof. intros ->. reflexivity. Qed.

Lemma lift_inv (r : res A) (a : A) (w w' : world) :
  lift r w = (Ok a, w') -> r = Ok a /\ w' = w.
Proof. unfold lift. intros [= -> ->]. split; reflexivity. Qed.

End MonadLaws.

Lemma getitem_ok (d : pyval) (k : string) (v : pyval) (w : world) :
  item d k = Some v -> getitem d k w = (Ok v, w).
Proof.
  destruct d; simpl; try discriminate.
  intros ->. reflexivity.
Qed.

Lemma getitem_inv (d : pyval) (k : string) (v : pyval) (w w' : world) :
  getitem d k w = (Ok v, w') -> item d k = Some v /\ w' = w.
Proof.
  destruct d; simpl; try discriminate.
  destruct (d !! k) as [v'|]; simpl; [|discriminate].
  intros [= -> ->]. split; reflexivity.
Qed.


Lemma pure_ret {A : Type} (a : A) : pure (ret a).
Proof. intros w1 w2. split; reflexivity. Qed.

Lemma pure_lift {A : Type} (r : res A) : pure (lift r).
Proof. intros w1 w2. split; reflexivity. Qed.

Lemma pure_getitem (d : pyval) (k : string) : pure (getitem d k).
Proof.
  intros w1 w2. destruct d; simpl; try (split; reflexivity).
  destruct (d !! k); split; reflexivity.
Qed.

Lemma pure_bind {A B : Type} (m : M A) (k : A -> M B) :
  pure m -> (forall a, pure (k a)) -> pure (bind m k).
Proof.
  intros Hm Hk w1 w2. unfold bind.
  destruct (Hm w1 w2) as [Hres Hw1]. destruct (Hm w2 w1) as [_ Hw2].
  destruct (m w1) as [r1 u1], (m w2) as [r2 u2]. simpl in *. subst.
  destruct r2 as [a|e]; [apply Hk | split; reflexivity].
Qed.

Ltac pure_steps :=
  repeat first
    [ apply pure_ret | apply pure_lift | apply pure_getitem
    | apply pure_bind; [| intros ?] ].

(** Runs the leading [bind] of the goal on a step known to succeed. *)
Ltac run_step :=
  erewrite bind_ok by
    first [ apply getitem_ok; eassumption
          | apply lift_ok; eassumption
          | eassumption ].

(** Splits a successful run of a [bind] chain in hypothesis [H] into its steps. *)
Ltac split_run H :=
  repeat
    (let a := fresh "a" in
     let u := fresh "u" in
     let Hstep := fresh "Hstep" in
     apply bind_inv in H as (a & u & Hstep & H);
     first [ apply getitem_inv in Hstep as [Hstep ->]
           | apply lift_inv in Hstep as [Hstep ->]
           | idtac ]).

(** ** The typed-data encoder *)

Section Encoder.

Variable keccak : bytes -> bytes.
Variable encode_typed : pyval -> list pyval -> res bytes.

Local Abbreviation _encode_domain := (KeyGenerator._encode_domain keccak encode_typed).
Local Abbreviation _encode_message := (KeyGenerator._encode_message keccak encode_typed).
Local Abbreviation encode_typed_data := (KeyGenerator.encode_typed_data keccak encode_typed).

Lemma encode_message_ok (self : KeyGenerator.t) (types message fields : pyval)
    (v1 v2 v3 v4 : pyval) (encoded : bytes) (w : world) :
  item types "Agent" = Some fields ->
  item message "litLayer" = Some v1 ->
  item message "agentAddress" = Some v2 ->
  item message "platform" = Some v3 ->
  item message "expiryTime" = Some v4 ->
  encode_typed fields [v1; v2; v3; v4] = Ok encoded ->
  _encode_message self types message w = (Ok (keccak encoded), w).
Proof.
  intros Hf H1 H2 H3 H4 He. unfold KeyGenerator._encode_message.
  do 6 run_step. reflexivity.
Qed.

Lemma encode_domain_ok (self : KeyGenerator.t) (domain fields : pyval)
    (v1 v2 v3 v4 v5 : pyval) (encoded : bytes) (w : world) :
  item (KeyGenerator.types self) "EIP712Domain" = Some fields ->
  item domain "name" = Some v1 ->
  item domain "version" = Some v2 ->
  item domain "chainId" = Some v3 ->
  item domain "verifyingContract" = Some v4 ->
  item domain "salt" = Some v5 ->
  encode_typed fields [v1; v2; v3; v4; v5] = Ok encoded ->
  _encode_domain self domain w = (Ok (keccak encoded), w).
Proof.
  intros Hf H1 H2 H3 H4 H5 He. unfold KeyGenerator._encode_domain.
  do 7 run_step. reflexivity.
Qed.

Lemma encode_message_inv (self : KeyGenerator.t) (types message : pyval)
    (hash : bytes) (w w' : world) :
  _encode_message self types message w = (Ok hash, w') ->
  w' = w /\
  exists fields v1 v2 v3 v4 encoded,
    item types "Agent" = Some fields /\
    item message "litLayer" = Some v1 /\
    item message "agentAddress" = Some v2 /\
    item message "platform" = Some v3 /\
    item message "expiryTime" = Some v4 /\
    encode_typed fields [v1; v2; v3; v4] = Ok encoded /\
    hash = keccak encoded.
Proof.
  intros H. unfold KeyGenerator._encode_message in H. split_run H.
  injection H as <- <-. split; [reflexivity|].
  do 6 eexists. repeat split; eassumption.
Qed.

Lemma encode_domain_inv (self : KeyGenerator.t) (domain : pyval)
    (hash : bytes) (w w' : world) :
  _encode_domain self domain w = (Ok hash, w') ->
  w' = w /\
  exists fields v1 v2 v3 v4 v5 encoded,
    item (KeyGenerator.types self) "EIP712Domain" = Some fields /\
    item domain "name" = Some v1 /\
    item domain "version" = Some v2 /\
    item domain "chainId" = Some v3 /\
    item domain "verifyingContract" = Some v4 /\
    item domain "salt" = Some v5 /\
    encode_typed fields [v1; v2; v3; v4; v5] = Ok encoded /\
    hash = keccak encoded.
Proof.
  intros H. unfold KeyGenerator._encode_domain in H. split_run H.
  injection H as <- <-. split; [reflexivity|].
  do 7 eexists. repeat split; eassumption.
Qed.

Lemma encode_typed_data_pure (self : KeyGenerator.t) (data : pyval) :
  pure (encode_typed_data self data).
Proof.
  unfold KeyGenerator.encode_typed_data, KeyGenerator._encode_domain,
    KeyGenerator._encode_message.
  pure_steps.
Qed.


Lemma encode_typed_data_self (self1 self2 : KeyGenerator.t) (data : pyval) (w : world) :
  KeyGenerator.types self1 = KeyGenerator.types self2 ->
  encode_typed_data self1 data w = encode_typed_data self2 data w.
Proof.
  intros Htypes.
  unfold KeyGenerator.encode_typed_data, KeyGenerator._encode_domain,
    KeyGenerator._encode_message.
  now rewrite Htypes.
Qed.



(** The struct name is no argument of the encoder: one encoder cannot
    supply the type hash of ["Agent"] and that of ["EIP712Domain"], unless
    the two collide. *)
Lemma one_encoder_one_name (encodeValue : string -> pyval -> bytes) :
  Spec.typeHash keccak "Agent" [] ≠ Spec.typeHash keccak "EIP712Domain" [] ->
  ~ (Spec.encodes keccak encodeValue encode_typed "Agent"
     /\ Spec.encodes keccak encodeValue encode_typed "EIP712Domain").
Proof.
  intros Hdiffer [Hagent Hdomain].
  specialize (Hagent (PList []) [] [] eq_refl eq_refl).
  specialize (Hdomain (PList []) [] [] eq_refl eq_refl).
  rewrite Hagent in Hdomain. injection Hdomain as Hsame.
  unfold Spec.encodeData in Hsame. cbn [zip_with concat] in Hsame.
  rewrite !app_nil_r in Hsame. contradiction.
Qed.

(** Whatever order the schema declares, the values go to the encoder in the
    order in which the method reads them. *)
Lemma message_values_in_reading_order (encodeValue : string -> pyval -> bytes)
    (self : KeyGenerator.t) (types message declared : pyval) (fields : Spec.schema)
    (m1 m2 m3 m4 : pyval) (w : world) :
  Spec.encodes keccak encodeValue encode_typed "Agent" ->
  item types "Agent" = Some declared ->
  Spec.schema_of declared = Some fields ->
  length fields = 4 ->
  item message "litLayer" = Some m1 ->
  item message "agentAddress" = Some m2 ->
  item message "platform" = Some m3 ->
  item message "expiryTime" = Some m4 ->
  _encode_message self types message w
  = (Ok (Spec.hashStruct keccak encodeValue "Agent" fields [m1; m2; m3; m4]), w).
Proof.
  intros Hencoder Hdeclared Hschema Hlength H1 H2 H3 H4.
  apply (encode_message_ok self types message declared m1 m2 m3 m4 _ w
           Hdeclared H1 H2 H3 H4).
  apply (Hencoder declared fields _ Hschema). now rewrite Hlength.
Qed.


(** C2.  Whenever the library hash returns 32 bytes, the signing digest is
    produced exactly when the data carries a domain, types and a message
    whose struct hashes are produced, and it is then keccak256 of the two
    bytes 0x19 0x01, the 32-byte domain separator and the 32-byte message
    hash: a 66-byte preimage. *)
Theorem digest_is_keccak_of_prefix_separator_hash
    (self : KeyGenerator.t) (data : pyval) (digest : bytes) (w w' : world) :
  (forall preimage, length (keccak preimage) = 32) ->
  encode_typed_data self data w = (Ok digest, w') <->
  exists domain types message domain_separator message_hash,
    item data "domain" = Some domain /\
    item data "types" = Some types /\
    item data "message" = Some message /\
    _encode_domain self domain w = (Ok domain_separator, w) /\
    _encode_message self types message w = (Ok message_hash, w) /\
    length domain_separator = 32 /\
    length message_hash = 32 /\
    length ([x19; x01] ++ domain_separator ++ message_hash) = 66 /\
    digest = keccak ([x19; x01] ++ domain_separator ++ message_hash) /\
    w' = w.
Proof.
  intros Hlen. split.
  - intros H. unfold KeyGenerator.encode_typed_data in H.
    apply bind_inv in H as (domain & u1 & [Hdomain ->]%getitem_inv & H).
    apply bind_inv in H as (separator & u2 & Hsep & H).
    destruct (encode_domain_inv _ _ _ _ _ Hsep) as (-> & Hd).
    apply bind_inv in H as (types & u3 & [Htypes ->]%getitem_inv & H).
    apply bind_inv in H as (message & u4 & [Hmessage ->]%getitem_inv & H).
    apply bind_inv in H as (hash & u5 & Hhash & H).
    destruct (encode_message_inv _ _ _ _ _ _ Hhash) as (-> & Hm).
    injection H as <- <-.
    destruct Hd as (? & ? & ? & ? & ? & ? & ? & _ & _ & _ & _ & _ & _ & _ & Hds).
    destruct Hm as (? & ? & ? & ? & ? & ? & _ & _ & _ & _ & _ & _ & Hmh).
    exists domain, types, message, separator, hash.
    assert (length separator = 32) as Lsep by (rewrite Hds; apply Hlen).
    assert (length hash = 32) as Lhash by (rewrite Hmh; apply Hlen).
    repeat split; try assumption.
    rewrite !length_app, Lsep, Lhash. reflexivity.
  - intros (domain & types & message & ds & mh & Hd & Ht & Hm & Hds & Hmh & _ & _ & _ & -> & ->).
    unfold KeyGenerator.encode_typed_data. do 5 run_step. reflexivity.
Qed.

(** C9.  The digest is a function of the data alone: two invocations, on any
    two instances of the class and in any two states of the random source,
    the clock and the storage, return the same result, and an invocation
    leaves that state as it found it. *)
Theorem digest_is_deterministic
    (url1 url2 : string) (data : pyval) (w1 w2 : world) :
  (encode_typed_data (KeyGenerator.__init__ url1) data w1).1
  = (encode_typed_data (KeyGenerator.__init__ url2) data w2).1
  /\ (encode_typed_data (KeyGenerator.__init__ url1) data w1).2 = w1.
Proof.
  rewrite (encode_typed_data_self (KeyGenerator.__init__ url1)
             (KeyGenerator.__init__ url2) data w1 eq_refl).
  split.
  - apply (encode_typed_data_pure (KeyGenerator.__init__ url2) data w1 w2).
  - apply (encode_typed_data_pure (KeyGenerator.__init__ url2) data w1 w2).
Qed.

End Encoder.

(** ** Key generation *)

Section KeyMaterial.

Variable PrivateKey : Type.
Variable PrivateKey_new : bytes -> res PrivateKey.
Variable to_hex : PrivateKey -> string.

Local Abbreviation generate_trading_key :=
  (KeyGenerator.generate_trading_key PrivateKey PrivateKey_new to_hex).

(** One call in full: the next 32 bytes go to the key class, and the world
    moves on by those 32 bytes whether or not the class accepts them. *)
Lemma generate_trading_key_run (self : KeyGenerator.t) (agent_address : string)
    (w : world) :
  generate_trading_key self agent_address w
  = (match PrivateKey_new (next_bytes 32 w) with
     | Ok private_key => Ok ("0x" +:+ to_hex private_key)
     | Raise e => Raise e
     end, consume 32 w).
Proof.
  unfold KeyGenerator.generate_trading_key, bind, secrets_token_bytes, lift, ret.
  destruct (PrivateKey_new (next_bytes 32 w)); reflexivity.
Qed.

(** C5, amended.  Key generation draws 32 bytes from the random source
    once and never draws again: the world after the call is the world 32
    bytes further on.  The key returned is the key class's rendering of those
    very bytes when the class accepts them, and the class's error is the
    result when it rejects them; the scalar of a returned key is in
    [1, n-1] provided the key class accepts nothing else. *)
Theorem trading_key_is_a_single_draw (self : KeyGenerator.t)
    (agent_address : string) (w : world) :
  (generate_trading_key self agent_address w).2 = consume 32 w
  /\ drawn (generate_trading_key self agent_address w).2 = drawn w + 32
  /\ (forall private_key,
        PrivateKey_new (next_bytes 32 w) = Ok private_key ->
        (generate_trading_key self agent_address w).1
        = Ok ("0x" +:+ to_hex private_key))
  /\ (forall e,
        PrivateKey_new (next_bytes 32 w) = Raise e ->
        (generate_trading_key self agent_address w).1 = Raise e)
  /\ ((forall raw private_key,
         PrivateKey_new raw = Ok private_key -> Spec.valid_scalar raw) ->
      forall key,
        (generate_trading_key self agent_address w).1 = Ok key ->
        Spec.valid_scalar (next_bytes 32 w)).
Proof.
  rewrite generate_trading_key_run. simpl.
  split; [reflexivity|]. split; [reflexivity|].
  split; [|split].
  - intros private_key ->. reflexivity.
  - intros e ->. reflexivity.
  - intros Hclass key Hkey.
    destruct (PrivateKey_new (next_bytes 32 w)) as [private_key|e] eqn:Hnew;
      [|discriminate Hkey].
    apply (Hclass _ _ Hnew).
Qed.

(** C10.  The key does not depend on the agent address (nor on the
    instance): whenever the random source delivers the same 32 bytes, two
    calls return the same result whatever agent addresses they are given;
    in one and the same world the two calls agree on the world they leave
    too. *)
Theorem trading_key_ignores_agent_address (self1 self2 : KeyGenerator.t)
    (agent1 agent2 : string) (w1 w2 : world) :
  next_bytes 32 w1 = next_bytes 32 w2 ->
  (generate_trading_key self1 agent1 w1).1 = (generate_trading_key self2 agent2 w2).1
  /\ generate_trading_key self1 agent1 w1 = generate_trading_key self2 agent2 w1.
Proof.
  intros Hbytes. rewrite !generate_trading_key_run. simpl.
  rewrite Hbytes. split; reflexivity.
Qed.

End KeyMaterial.

(** ** The prepared message *)

Lemma py_int_whole (t : Q) (now : Z) : Qeq t (inject_Z now) -> py_int t = now.
Proof.
  unfold Qeq, py_int, inject_Z. simpl. intros Heq.
  rewrite Z.mul_1_r in Heq. rewrite Heq.
  apply Z.quot_mul. discriminate.
Qed.

(** C6.  The prepared message carries [expiryTime = int(time.time()) + 86400]:
    with the clock at [now] seconds, exactly [now + 86400], whatever the
    agent, platform and environment, and the call changes nothing. *)
Theorem expiry_is_now_plus_86400 (self : KeyGenerator.t) (agent_address : string)
    (platform environment : option string) (w : world) :
  exists data message,
    KeyGenerator.prepare_eip712_data self agent_address platform environment w
    = (Ok data, w)
    /\ item data "message" = Some message
    /\ item message "expiryTime" = Some (PInt (py_int (clock w) + 86400))
    /\ (forall now : Z,
          Qeq (clock w) (inject_Z now) ->
          item message "expiryTime" = Some (PInt (now + 86400))).
Proof.
  eexists. eexists. split; [reflexivity|].
  split; [reflexivity|]. split; [reflexivity|].
  intros now Hnow. rewrite <- (py_int_whole _ _ Hnow). reflexivity.
Qed.

(** ** File names *)

Lemma chars_app (s1 s2 : string) :
  Spec.chars (s1 +:+ s2) = Spec.chars s1 ++ Spec.chars s2.
Proof.
  unfold Spec.chars. induction s1 as [|c s1 IH]; simpl; [reflexivity|].
  now rewrite IH.
Qed.

Lemma chars_inj (s1 s2 : string) : Spec.chars s1 = Spec.chars s2 -> s1 = s2.
Proof.
  unfold Spec.chars. intros Heq.
  rewrite <- (string_of_list_ascii_of_string s1),
          <- (string_of_list_ascii_of_string s2).
  now rewrite Heq.
Qed.

(** Two lists cut at their first separator agree part by part. *)
Lemma split_at_first (sep : ascii) (l1 l2 r1 r2 : list ascii) :
  sep ∉ l1 -> sep ∉ l2 ->
  l1 ++ sep :: r1 = l2 ++ sep :: r2 ->
  l1 = l2 /\ r1 = r2.
Proof.
  revert l2. induction l1 as [|a l1 IH]; intros [|b l2] H1 H2 Heq; simpl in Heq.
  - injection Heq as ->. split; reflexivity.
  - injection Heq as <- _. exfalso. apply H2. left.
  - injection Heq as -> _. exfalso. apply H1. left.
  - injection Heq as -> Heq.
    destruct (IH l2) as [-> ->]; try assumption.
    + intros Hin. apply H1. now right.
    + intros Hin. apply H2. now right.
    + split; reflexivity.
Qed.

(** A wallet address without an underscore makes the file name determine
    the key. *)
Lemma file_name_inj (wallet1 session1 wallet2 session2 : string) :
  "_"%char ∉ Spec.chars wallet1 ->
  "_"%char ∉ Spec.chars wallet2 ->
  KeyGenerator.file_name wallet1 session1 = KeyGenerator.file_name wallet2 session2 ->
  wallet1 = wallet2 /\ session1 = session2.
Proof.
  intros H1 H2 Heq. unfold KeyGenerator.file_name in Heq.
  apply (f_equal Spec.chars) in Heq. rewrite !chars_app in Heq.
  change (Spec.chars "_") with ["_"%char] in Heq. simpl in Heq.
  destruct (split_at_first _ _ _ _ _ H1 H2 Heq) as [Hw Hs].
  apply app_inv_tail in Hs.
  split; apply chars_inj; assumption.
Qed.

Lemma plain_name_not_absolute (name : string) :
  Store.plain_name name -> startswith_slash name = false.
Proof.
  unfold Store.plain_name, Spec.chars.
  destruct name as [|c rest]; simpl; [reflexivity|].
  intros Hplain.
  destruct (Ascii.eqb_spec c "/") as [->|Hne].
  - exfalso. apply Hplain. left.
  - destruct c as [[] [] [] [] [] [] [] []]; try reflexivity.
    now contradiction Hne.
Qed.

(** Inside one storage directory, plain file names and paths correspond. *)
Lemma os_path_join_inj (dir name1 name2 : string) :
  Store.plain_name name1 -> Store.plain_name name2 ->
  os_path_join dir name1 = os_path_join dir name2 -> name1 = name2.
Proof.
  intros H1%plain_name_not_absolute H2%plain_name_not_absolute.
  unfold os_path_join. rewrite H1, H2.
  destruct (String.eqb dir "" || endswith_slash dir)%bool; intros Heq.
  - now apply (inj (String.app dir)) in Heq.
  - apply (inj (String.app dir)) in Heq.
    now apply (inj (String.app "/")) in Heq.
Qed.

Lemma session_file_ne (self : KeyGenerator.t)
    (wallet1 session1 wallet2 session2 : string) :
  Store.plain_name (KeyGenerator.file_name wallet1 session1) ->
  Store.plain_name (KeyGenerator.file_name wallet2 session2) ->
  KeyGenerator.file_name wallet1 session1 ≠ KeyGenerator.file_name wallet2 session2 ->
  KeyGenerator.session_file self wallet1 session1
  ≠ KeyGenerator.session_file self wallet2 session2.
Proof.
  intros H1 H2 Hne Heq. apply Hne.
  apply (os_path_join_inj _ _ _ H1 H2 Heq).
Qed.

(** ** Keys *)

Lemma alphanumeric_not (c : ascii) :
  Spec.alphanumeric c = true -> c ≠ "_"%char /\ c ≠ "/"%char.
Proof. intros Hc. split; intros ->; discriminate Hc. Qed.

Lemma key_text_chars (s : string) (c : ascii) :
  Spec.key_text s -> c ∈ Spec.chars s -> Spec.alphanumeric c = true.
Proof.
  unfold Spec.key_text. intros Hall Hin.
  rewrite forallb_forall in Hall. apply Hall.
  now apply list_elem_of_In.
Qed.

Lemma key_text_no_underscore (s : string) : Spec.key_text s -> "_"%char ∉ Spec.chars s.
Proof.
  intros Hs Hin. now destruct (alphanumeric_not _ (key_text_chars _ _ Hs Hin)).
Qed.

(** The file name of a key is a plain name. *)
Lemma key_plain_name (wallet session : string) :
  Spec.key wallet session -> Store.plain_name (KeyGenerator.file_name wallet session).
Proof.
  intros [Hw Hs]. unfold Store.plain_name, KeyGenerator.file_name.
  rewrite !chars_app. intros Hin.
  apply elem_of_app in Hin as [Hin|Hin].
  - now destruct (alphanumeric_not _ (key_text_chars _ _ Hw Hin)).
  - apply elem_of_app in Hin as [Hin|Hin].
    + apply list_elem_of_singleton in Hin. discriminate Hin.
    + apply elem_of_app in Hin as [Hin|Hin].
      * now destruct (alphanumeric_not _ (key_text_chars _ _ Hs Hin)).
      * revert Hin. apply (bool_decide_unpack _). vm_compute. exact I.
Qed.

(** Two keys are one key as soon as they have one file. *)
Lemma key_file_inj (self : KeyGenerator.t) (wallet1 session1 wallet2 session2 : string) :
  Spec.key wallet1 session1 -> Spec.key wallet2 session2 ->
  KeyGenerator.session_file self wallet1 session1
  = KeyGenerator.session_file self wallet2 session2 ->
  (wallet1, session1) = (wallet2, session2).
Proof.
  intros K1 K2 Hfile.
  apply (os_path_join_inj _ _ _ (key_plain_name _ _ K1) (key_plain_name _ _ K2))
    in Hfile.
  destruct (file_name_inj _ _ _ _ (key_text_no_underscore _ (proj1 K1))
              (key_text_no_underscore _ (proj1 K2)) Hfile) as [-> ->].
  reflexivity.
Qed.

(** ** The session store *)

Section SessionStore.

Variable opens : string -> world -> res unit.
Variable json_dump : pyval -> string.
Variable json_load : string -> res pyval.

Local Abbreviation save_session_keys := (KeyGenerator.save_session_keys opens json_dump).
Local Abbreviation load_session_keys := (KeyGenerator.load_session_keys json_load).
Local Abbreviation delete_session_keys := KeyGenerator.delete_session_keys.
Local Abbreviation session_file := KeyGenerator.session_file.
Local Abbreviation file_name := KeyGenerator.file_name.

(** What load returns is decided by the content of the key's file. *)
Lemma load_session_keys_run (self : KeyGenerator.t) (wallet session : string)
    (w : world) :
  load_session_keys self wallet session w
  = (match files w !! session_file self wallet session with
     | Some text => json_load text
     | None => Ok PNone
     end, w).
Proof.
  unfold KeyGenerator.load_session_keys, bind, os_path_exists, read_text, lift, ret.
  destruct (files w !! session_file self wallet session) as [text|] eqn:Hfile.
  - rewrite bool_decide_eq_true_2 by (now exists text). simpl.
    now rewrite Hfile.
  - rewrite bool_decide_eq_false_2 by (intros [text Htext]; discriminate Htext).
    reflexivity.
Qed.

(** A save that returns has left the record in the key's file. *)
Lemma save_session_keys_files (self : KeyGenerator.t) (wallet session : string)
    (record : pyval) (w : world) :
  (save_session_keys self wallet session record w).1 = Ok tt ->
  files (save_session_keys self wallet session record w).2
  = <[session_file self wallet session := json_dump record]> (files w).
Proof.
  unfold KeyGenerator.save_session_keys, write_text.
  destruct (opens _ w); [reflexivity | discriminate].
Qed.


(** Whether a save returns is the answer to the open, whatever the record. *)
Lemma save_session_keys_granted (self : KeyGenerator.t) (wallet session : string)
    (record : pyval) (w : world) :
  (save_session_keys self wallet session record w).1 = Ok tt
  <-> exists u, opens (session_file self wallet session) w = Ok u.
Proof.
  unfold KeyGenerator.save_session_keys, write_text.
  destruct (opens _ w) as [u|e]; cbn [fst]; split.
  - intros _. now exists u.
  - reflexivity.
  - discriminate.
  - intros [u Hu]. discriminate Hu.
Qed.

(** Either way a save leaves every other file as it is. *)
Lemma save_session_keys_other (self : KeyGenerator.t) (wallet session : string)
    (record : pyval) (w : world) (path : string) :
  path ≠ session_file self wallet session ->
  files (save_session_keys self wallet session record w).2 !! path = files w !! path.
Proof.
  intros Hpath. unfold KeyGenerator.save_session_keys, write_text.
  destruct (opens _ w); [|reflexivity].
  cbn [snd files]. now rewrite lookup_insert_ne.
Qed.

Lemma delete_session_keys_files (self : KeyGenerator.t) (wallet session : string)
    (w : world) :
  files (delete_session_keys self wallet session w).2
  = delete (session_file self wallet session) (files w).
Proof.
  unfold KeyGenerator.delete_session_keys, bind, os_path_exists, os_remove, ret.
  destruct (files w !! session_file self wallet session) as [text|] eqn:Hfile.
  - rewrite bool_decide_eq_true_2 by (now exists text). simpl.
    now rewrite Hfile.
  - rewrite bool_decide_eq_false_2 by (intros [text Htext]; discriminate Htext).
    simpl. symmetry. now apply delete_id.
Qed.

(** Deleting never raises: the file is removed only when it is there. *)
Lemma delete_session_keys_ok (self : KeyGenerator.t) (wallet session : string)
    (w : world) :
  (delete_session_keys self wallet session w).1 = Ok tt.
Proof.
  unfold KeyGenerator.delete_session_keys, bind, os_path_exists, os_remove, ret.
  destruct (files w !! session_file self wallet session) as [text|] eqn:Hfile.
  - rewrite bool_decide_eq_true_2 by (now exists text). simpl.
    now rewrite Hfile.
  - rewrite bool_decide_eq_false_2 by (intros [text Htext]; discriminate Htext).
    reflexivity.
Qed.

(** A history that never saves into a file leaves that file absent. *)
Lemma run_ops_file_absent (self : KeyGenerator.t) (wallet session : string)
    (ops : list Spec.store_op) (w : world) :
  files w !! session_file self wallet session = None ->
  Store.plain_name (file_name wallet session) ->
  Forall (fun op => Store.plain_name (Store.op_name op)) ops ->
  Store.file_never_saved wallet session ops ->
  files (Store.run_ops opens json_dump self ops w) !! session_file self wallet session
  = None.
Proof.
  intros Habsent Hplain Hops. revert w Habsent.
  induction Hops as [|op ops Hop Hops IH]; intros w Habsent Hnever;
    cbn [Store.run_ops].
  - exact Habsent.
  - apply IH.
    + destruct op as [wallet' session' record|wallet' session'];
        cbn [Store.apply_op Store.op_name] in *.
      * rewrite save_session_keys_other; [exact Habsent|].
        intros Hsame. symmetry in Hsame. revert Hsame.
        apply session_file_ne; [exact Hop | exact Hplain |].
        apply (Hnever wallet' session' record). left.
      * rewrite delete_session_keys_files.
        apply lookup_delete_None. now right.
    + intros wallet' session' record Hin.
      apply (Hnever wallet' session' record). now right.
Qed.

(** Among keys, a key under which nothing was saved has a file into which
    nothing was saved. *)
Lemma never_saved_file (wallet session : string) (ops : list Spec.store_op) :
  Spec.key wallet session ->
  Forall Store.on_key ops ->
  Store.never_saved wallet session ops ->
  Forall (fun op => Store.plain_name (Store.op_name op)) ops
  /\ Store.file_never_saved wallet session ops.
Proof.
  intros Hkey Hops Hnever. split.
  - eapply Forall_impl; [exact Hops|].
    intros [wallet' session' record|wallet' session'] Hop; now apply key_plain_name.
  - intros wallet' session' record Hin Hname.
    apply (Hnever wallet' session' record Hin).
    rewrite Forall_forall in Hops. specialize (Hops _ Hin). cbn in Hops.
    destruct (file_name_inj _ _ _ _ (key_text_no_underscore _ (proj1 Hops))
                (key_text_no_underscore _ (proj1 Hkey)) Hname) as [-> ->].
    reflexivity.
Qed.

(** C7.  For every key [(walletAddress, sessionId)], the addresses and
    identifiers being text of letters and digits, and every record (one
    the JSON library reads back as written): a save that goes through
    followed by load on the same key returns the record; delete followed by
    load on the same key returns [None]; and, starting from an empty store,
    load on a key under which no record was ever saved returns [None] and
    does not raise, whatever was saved and deleted under other keys. *)
Theorem store_round_trip_on_keys (self : KeyGenerator.t) (wallet session : string) :
  Spec.key wallet session ->
  (forall record w,
     json_load (json_dump record) = Ok record ->
     (save_session_keys self wallet session record w).1 = Ok tt ->
     (load_session_keys self wallet session
        (save_session_keys self wallet session record w).2).1 = Ok record)
  /\ (forall w,
        (load_session_keys self wallet session
           (delete_session_keys self wallet session w).2).1 = Ok PNone)
  /\ (forall ops w,
        files w = ∅ ->
        Forall Store.on_key ops ->
        Store.never_saved wallet session ops ->
        (load_session_keys self wallet session
           (Store.run_ops opens json_dump self ops w)).1 = Ok PNone).
Proof.
  intros Hkey. split; [|split].
  - intros record w Hjson Hsaved.
    rewrite load_session_keys_run, (save_session_keys_files _ _ _ _ _ Hsaved).
    rewrite lookup_insert_eq. exact Hjson.
  - intros w. rewrite load_session_keys_run, delete_session_keys_files.
    now rewrite lookup_delete_eq.
  - intros ops w Hempty Hops Hnever. rewrite load_session_keys_run.
    destruct (never_saved_file _ _ _ Hkey Hops Hnever) as [Hplain Hfile].
    rewrite run_ops_file_absent; try assumption; [reflexivity | |].
    + rewrite Hempty. apply lookup_empty.
    + now apply key_plain_name.
Qed.

(** C8.  For every pair of distinct keys, a save or a delete under the
    first key leaves what load returns under the second key unchanged,
    whether the save goes through or is refused. *)
Theorem distinct_keys_are_independent (self : KeyGenerator.t)
    (wallet1 session1 wallet2 session2 : string) (record : pyval) (w : world) :
  Spec.key wallet1 session1 -> Spec.key wallet2 session2 ->
  (wallet1, session1) ≠ (wallet2, session2) ->
  (load_session_keys self wallet2 session2
     (save_session_keys self wallet1 session1 record w).2).1
  = (load_session_keys self wallet2 session2 w).1
  /\
  (load_session_keys self wallet2 session2
     (delete_session_keys self wallet1 session1 w).2).1
  = (load_session_keys self wallet2 session2 w).1.
Proof.
  intros K1 K2 Hne.
  assert (session_file self wallet2 session2 ≠ session_file self wallet1 session1)
    as Hpath.
  { intros Hsame. apply Hne. symmetry. now apply (key_file_inj self). }
  rewrite !load_session_keys_run. cbn [fst]. split.
  - now rewrite save_session_keys_other.
  - rewrite delete_session_keys_files. now rewrite lookup_delete_ne.
Qed.

End SessionStore.

(** ** The theorems on concrete inputs *)

Lemma standin_keccak_length (data : bytes) : length (Standin.keccak data) = 32.
Proof.
  unfold Standin.keccak.
  rewrite length_take, length_app, length_replicate. lia.
Qed.


(** Two keys, one file. *)
Lemma aliased_keys (self : KeyGenerator.t) :
  KeyGenerator.session_file self "a_b" "c" = KeyGenerator.session_file self "a" "b_c".
Proof. reflexivity. Qed.





Lemma digest_is_keccak_of_prefix_separator_hash_witness :
  let self := KeyGenerator.__init__ "https://api.litlayer.com" in
  let w := Standin.fresh Standin.zeros (Qmake 0 1) in
  KeyGenerator.encode_typed_data Standin.keccak Standin.encode_typed self
    Standin.example_data w
  = (Ok (Standin.keccak
           ([x19; x01]
            ++ Spec.hashStruct Standin.keccak Standin.encodeValue "EIP712Domain"
                 Standin.domain_schema Standin.domain_values
            ++ Spec.hashStruct Standin.keccak Standin.encodeValue "Agent"
                 Standin.agent_schema Standin.example_values)), w).
Proof.
  intros self w.
  apply (proj2 (digest_is_keccak_of_prefix_separator_hash
                  Standin.keccak Standin.encode_typed self Standin.example_data
                  _ w w standin_keccak_length)).
  exists KeyGenerator.default_domain, KeyGenerator.default_types,
    Standin.example_message,
    (Spec.hashStruct Standin.keccak Standin.encodeValue "EIP712Domain"
       Standin.domain_schema Standin.domain_values),
    (Spec.hashStruct Standin.keccak Standin.encodeValue "Agent"
       Standin.agent_schema Standin.example_values).
  repeat split; reflexivity.
Defined.

Lemma key_generation_never_redraws :
  ~ exists (PrivateKey : Type) (PrivateKey_new : bytes -> res PrivateKey)
           (to_hex : PrivateKey -> string),
      Stated.scalar_in_range_by_redrawing PrivateKey PrivateKey_new to_hex.
Proof.
  intros (PrivateKey & PrivateKey_new & to_hex & _ & Hredraw).
  specialize (Hredraw (KeyGenerator.__init__ "") ""
                (Standin.fresh Standin.zeros (Qmake 0 1))).
  rewrite generate_trading_key_run in Hredraw. simpl in Hredraw.
  assert (~ Spec.valid_scalar
              (next_bytes 32 (Standin.fresh Standin.zeros (Qmake 0 1)))) as Hzero.
  { intros [Hlow _]. vm_compute in Hlow. apply Hlow. reflexivity. }
  specialize (Hredraw Hzero). lia.
Qed.

Lemma trading_key_ignores_agent_address_witness :
  (KeyGenerator.generate_trading_key Standin.PrivateKey Standin.PrivateKey_new
     Standin.to_hex (KeyGenerator.__init__ "https://api.litlayer.com")
     "0x742d35Cc6634C0532925a3b844Bc454e4438f44e"
     (Standin.fresh Standin.sevens (Qmake 0 1))).1
  = (KeyGenerator.generate_trading_key Standin.PrivateKey Standin.PrivateKey_new
       Standin.to_hex (KeyGenerator.__init__ "http://localhost/")
       "0xd28ac95d6D5Ba255816043200DD502A8EE5dD03C" Standin.later).1.
Proof.
  apply (trading_key_ignores_agent_address Standin.PrivateKey
           Standin.PrivateKey_new Standin.to_hex).
  reflexivity.
Defined.

Lemma example_key : Spec.key "0xabc" "01".
Proof. split; reflexivity. Qed.

Lemma store_round_trip_on_keys_witness :
  let self := KeyGenerator.__init__ "https://api.litlayer.com" in
  let record := PStr "session" in
  let history :=
    [Spec.Save "0xabc" "02" record; Spec.Delete "0xabc" "01";
     Spec.Save "0xdef" "01" record] in
  (KeyGenerator.load_session_keys Standin.json_load self "0xabc" "01"
     (KeyGenerator.save_session_keys Standin.opens Standin.json_dump self "0xabc" "01"
        record Standin.later).2).1 = Ok record
  /\ (KeyGenerator.load_session_keys Standin.json_load self "0xabc" "01"
        (KeyGenerator.delete_session_keys self "0xabc" "01" Standin.later).2).1
     = Ok PNone
  /\ (KeyGenerator.load_session_keys Standin.json_load self "0xabc" "01"
        (Store.run_ops Standin.opens Standin.json_dump self history
           (Standin.fresh Standin.zeros (Qmake 0 1)))).1 = Ok PNone.
Proof.
  intros self record history.
  destruct (store_round_trip_on_keys Standin.opens Standin.json_dump Standin.json_load
              self "0xabc" "01" example_key)
    as (Hsave & Hdelete & Hnever).
  split; [apply Hsave; reflexivity|]. split; [apply Hdelete|].
  apply Hnever.
  - reflexivity.
  - repeat constructor.
  - intros wallet' session' saved Hin.
    repeat (apply elem_of_cons in Hin as [Hin|Hin]);
      try discriminate Hin;
      try (injection Hin as -> -> _; discriminate).
    inversion Hin.
Defined.

Lemma distinct_keys_are_independent_witness :
  let self := KeyGenerator.__init__ "https://api.litlayer.com" in
  let w := Standin.later in
  (KeyGenerator.load_session_keys Standin.json_load self "0xabc" "02"
     (KeyGenerator.save_session_keys Standin.opens Standin.json_dump self "0xabc" "01"
        (PStr "session") w).2).1
  = (KeyGenerator.load_session_keys Standin.json_load self "0xabc" "02" w).1
  /\
  (KeyGenerator.load_session_keys Standin.json_load self "0xabc" "02"
     (KeyGenerator.delete_session_keys self "0xabc" "01" w).2).1
  = (KeyGenerator.load_session_keys Standin.json_load self "0xabc" "02" w).1.
Proof.
  intros self w.
  apply (distinct_keys_are_independent Standin.opens Standin.json_dump Standin.json_load
           self "0xabc" "01" "0xabc" "02" (PStr "session") w).
  - split; reflexivity.
  - split; reflexivity.
  - discriminate.
Defined.

(** ** The methods run on examples *)

(** With the clock three quarters into second 1700000000 the message
    expires at 1700086400. *)
Example expiry_of_a_fractional_clock :
  exists data message,
    KeyGenerator.prepare_eip712_data (KeyGenerator.__init__ "https://api.litlayer.com/")
      "0xd28ac95d6D5Ba255816043200DD502A8EE5dD03C" None None
      (Standin.fresh Standin.zeros (Qmake 6800000003 4))
    = (Ok data, Standin.fresh Standin.zeros (Qmake 6800000003 4))
    /\ item data "message" = Some message
    /\ item message "expiryTime" = Some (PInt 1700086400)
    /\ item message "platform" = Some (PStr "turbox")
    /\ item message "litLayer" = Some (PStr "Devnet").
Proof. do 2 eexists. repeat split. Qed.

(** Thirty-two zero bytes: one draw, and the stand-in key class turns the
    scalar 0 down. *)
Example zero_bytes_are_drawn_once :
  KeyGenerator.generate_trading_key Standin.PrivateKey Standin.PrivateKey_new
    Standin.to_hex (KeyGenerator.__init__ "") "0xd28ac95d6D5Ba255816043200DD502A8EE5dD03C"
    (Standin.fresh Standin.zeros (Qmake 0 1))
  = (Raise (LibraryError "ValidationError"),
     consume 32 (Standin.fresh Standin.zeros (Qmake 0 1))).
Proof. reflexivity. Qed.

Example sevens_make_a_key :
  (KeyGenerator.generate_trading_key Standin.PrivateKey Standin.PrivateKey_new
     Standin.to_hex (KeyGenerator.__init__ "") "" Standin.later).1
  = Ok "0x0707070707070707070707070707070707070707070707070707070707070707".
Proof. reflexivity. Qed.

(** Outside the keys of the store, two pairs of strings can share a file:
    a record saved under one is what load returns under the other. *)
Example load_through_a_shared_file :
  let self := KeyGenerator.__init__ "https://api.litlayer.com" in
  let w := Standin.fresh Standin.zeros (Qmake 0 1) in
  (KeyGenerator.load_session_keys Standin.json_load self "a" "b_c" w).1 = Ok PNone
  /\ (KeyGenerator.load_session_keys Standin.json_load self "a" "b_c"
        (KeyGenerator.save_session_keys Standin.opens Standin.json_dump self "a_b" "c"
           (PStr "trading key") w).2).1 = Ok (PStr "trading key").
Proof. split; reflexivity. Qed.

Example constructor_strips_slashes :
  KeyGenerator.base_url (KeyGenerator.__init__ "https://api.litlayer.com//")
  = "https://api.litlayer.com"
  /\ KeyGenerator.session_file (KeyGenerator.__init__ "https://api.litlayer.com//")
       "0x742d" "9f3c" = ".keys/0x742d_9f3c.key".
Proof. split; reflexivity. Qed.

Example agent_type_signature :
  Spec.type_signature "Agent" Standin.agent_schema
  = "Agent(string litLayer,address agentAddress,string platform,uint256 expiryTime)".
Proof. reflexivity. Qed.

(** * Further properties of the code *)

(** ** The storage methods *)

Section StoreMore.

Variable opens : string -> world -> res unit.
Variable json_dump : pyval -> string.
Variable json_load : string -> res pyval.

Local Abbreviation save_session_keys := (KeyGenerator.save_session_keys opens json_dump).
Local Abbreviation load_session_keys := (KeyGenerator.load_session_keys json_load).
Local Abbreviation delete_session_keys := KeyGenerator.delete_session_keys.
Local Abbreviation session_file := KeyGenerator.session_file.

Lemma world_eq (w1 w2 : world) :
  entropy w1 = entropy w2 -> drawn w1 = drawn w2 -> clock w1 = clock w2 ->
  files w1 = files w2 -> w1 = w2.
Proof. destruct w1, w2. simpl. intros -> -> -> ->. reflexivity. Qed.


(** X1.  Deleting is safe to repeat: it never raises, it leaves the world
    as it is when the key has no file, and a second delete after a first
    changes nothing. *)
Theorem delete_is_idempotent (self : KeyGenerator.t) (wallet session : string)
    (w : world) :
  (delete_session_keys self wallet session w).1 = Ok tt
  /\ (files w !! session_file self wallet session = None ->
      delete_session_keys self wallet session w = (Ok tt, w))
  /\ delete_session_keys self wallet session
       (delete_session_keys self wallet session w).2
     = (Ok tt, (delete_session_keys self wallet session w).2).
Proof.
  assert (forall u, files u !! session_file self wallet session = None ->
                    delete_session_keys self wallet session u = (Ok tt, u)) as Habsent.
  { intros u Hnone.
    unfold KeyGenerator.delete_session_keys, bind, os_path_exists, ret.
    rewrite bool_decide_eq_false_2; [reflexivity|].
    intros [text Htext]. rewrite Hnone in Htext. discriminate Htext. }
  split; [apply delete_session_keys_ok|]. split; [apply Habsent|].
  apply Habsent. rewrite delete_session_keys_files. apply lookup_delete_eq.
Qed.

(** A save leaves the random source and the clock as they are. *)
Lemma save_session_keys_rest (self : KeyGenerator.t) (wallet session : string)
    (record : pyval) (w : world) :
  entropy (save_session_keys self wallet session record w).2 = entropy w
  /\ drawn (save_session_keys self wallet session record w).2 = drawn w
  /\ clock (save_session_keys self wallet session record w).2 = clock w.
Proof.
  unfold KeyGenerator.save_session_keys, write_text.
  destruct (opens _ w); repeat split.
Qed.

(** X2.  The last save wins: after two saves under one wallet address and
    session id that both go through, load returns the second record (one
    the JSON library reads back as written), and the world is the one the
    second save alone leaves, which goes through as well. *)
Theorem last_save_wins (self : KeyGenerator.t) (wallet session : string)
    (first second : pyval) (w : world) :
  let once := save_session_keys self wallet session second w in
  let twice :=
    save_session_keys self wallet session second
      (save_session_keys self wallet session first w).2 in
  json_load (json_dump second) = Ok second ->
  (save_session_keys self wallet session first w).1 = Ok tt ->
  twice.1 = Ok tt ->
  (load_session_keys self wallet session twice.2).1 = Ok second
  /\ once.1 = Ok tt
  /\ twice.2 = once.2.
Proof.
  intros once twice Hjson Hfirst Hsecond. subst once twice.
  assert ((save_session_keys self wallet session second w).1 = Ok tt) as Honce.
  { apply save_session_keys_granted. now apply save_session_keys_granted in Hfirst. }
  split; [|split].
  - rewrite load_session_keys_run. cbn [fst].
    rewrite (save_session_keys_files _ _ _ _ _ _ _ Hsecond), lookup_insert_eq.
    exact Hjson.
  - exact Honce.
  - apply world_eq.
    + now rewrite !(proj1 (save_session_keys_rest _ _ _ _ _)).
    + now rewrite !(proj1 (proj2 (save_session_keys_rest _ _ _ _ _))).
    + now rewrite !(proj2 (proj2 (save_session_keys_rest _ _ _ _ _))).
    + rewrite (save_session_keys_files _ _ _ _ _ _ _ Hsecond),
        (save_session_keys_files _ _ _ _ _ _ _ Hfirst),
        (save_session_keys_files _ _ _ _ _ _ _ Honce).
      apply insert_insert_eq.
Qed.


End StoreMore.

Lemma startswith_slash_prefixed (rest : string) :
  startswith_slash (".keys/" +:+ rest) = false.
Proof. reflexivity. Qed.

(** X4.  In the storage directory the constructor sets, the file of a key
    determines the key as soon as wallet addresses contain no underscore:
    two such keys with one file are one key. *)
Theorem session_file_determines_key (url wallet1 session1 wallet2 session2 : string) :
  "_"%char ∉ Spec.chars wallet1 ->
  "_"%char ∉ Spec.chars wallet2 ->
  KeyGenerator.session_file (KeyGenerator.__init__ url) wallet1 session1
  = KeyGenerator.session_file (KeyGenerator.__init__ url) wallet2 session2 ->
  wallet1 = wallet2 /\ session1 = session2.
Proof.
  intros H1 H2 Hfile. apply (file_name_inj _ _ _ _ H1 H2).
  unfold KeyGenerator.session_file, os_path_join in Hfile.
  change (KeyGenerator.storage_dir (KeyGenerator.__init__ url)) with ".keys" in Hfile.
  change (String.eqb ".keys" "" || endswith_slash ".keys")%bool with false in Hfile.
  destruct (startswith_slash (KeyGenerator.file_name wallet1 session1)) eqn:A1,
           (startswith_slash (KeyGenerator.file_name wallet2 session2)) eqn:A2.
  - exact Hfile.
  - rewrite Hfile in A1. discriminate A1.
  - rewrite <- Hfile in A2. discriminate A2.
  - apply (inj (String.app ".keys")) in Hfile.
    now apply (inj (String.app "/")) in Hfile.
Qed.

Lemma session_file_determines_key_witness :
  "0x742d" = "0x742d" /\ "9f_3c" = "9f_3c".
Proof.
  apply (session_file_determines_key "https://api.litlayer.com"
           "0x742d" "9f_3c" "0x742d" "9f_3c").
  - apply (bool_decide_unpack _). vm_compute. exact I.
  - apply (bool_decide_unpack _). vm_compute. exact I.
  - reflexivity.
Defined.

Lemma last_save_wins_witness :
  (KeyGenerator.load_session_keys Standin.json_load
     (KeyGenerator.__init__ "https://api.litlayer.com") "0xabc" "01"
     (KeyGenerator.save_session_keys Standin.opens Standin.json_dump
        (KeyGenerator.__init__ "https://api.litlayer.com") "0xabc" "01" (PStr "second")
        (KeyGenerator.save_session_keys Standin.opens Standin.json_dump
           (KeyGenerator.__init__ "https://api.litlayer.com") "0xabc" "01" (PStr "first")
           Standin.later).2).2).1 = Ok (PStr "second").
Proof.
  apply (last_save_wins Standin.opens Standin.json_dump Standin.json_load
           (KeyGenerator.__init__ "https://api.litlayer.com") "0xabc" "01"
           (PStr "first") (PStr "second") Standin.later); reflexivity.
Defined.


(** ** The base URL *)

Lemma rstrip_slash_cut (s : string) :
  exists k, s = rstrip_slash s +:+ slashes k /\ endswith_slash (rstrip_slash s) = false.
Proof.
  induction s as [|c rest (k & Hrest & Hend)].
  - exists 0. split; reflexivity.
  - cbn [rstrip_slash]. destruct (rstrip_slash rest) as [|a kept] eqn:Hkept.
    + destruct (Ascii.eqb_spec c "/") as [->|Hc].
      * exists (S k). split; [|reflexivity].
        rewrite Hrest. reflexivity.
      * exists k. split.
        -- rewrite Hrest at 1. reflexivity.
        -- cbn. now apply Ascii.eqb_neq in Hc as ->.
    + exists k. split.
      * rewrite Hrest at 1. reflexivity.
      * exact Hend.
Qed.

(** X5.  The base URL an instance keeps is the URL it was given without its
    trailing slashes, and so never ends in a slash: the address
    [f"{self.base_url}/v1/exchange"] has one slash where the two meet.  The
    REST client and the key generator it builds keep the same base URL. *)
Theorem base_url_has_no_trailing_slash (url : string) (api_key : option string) :
  (exists k, url = KeyGenerator.base_url (KeyGenerator.__init__ url) +:+ slashes k)
  /\ endswith_slash (KeyGenerator.base_url (KeyGenerator.__init__ url)) = false
  /\ LitLayerRestClient.base_url (LitLayerRestClient.__init__ (Some url) api_key)
     = KeyGenerator.base_url (KeyGenerator.__init__ url)
  /\ KeyGenerator.base_url
       (LitLayerRestClient.key_generator (LitLayerRestClient.__init__ (Some url) api_key))
     = KeyGenerator.base_url (KeyGenerator.__init__ url).
Proof.
  destruct (rstrip_slash_cut url) as (k & Hcut & Hend).
  split; [exists k; exact Hcut|]. split; [exact Hend|]. split; reflexivity.
Qed.

(** ** The encoder, once more *)

Section EncoderMore.

Variable keccak : bytes -> bytes.
Variable encode_typed : pyval -> list pyval -> res bytes.

Local Abbreviation encode_typed_data := (KeyGenerator.encode_typed_data keccak encode_typed).

(** X6.  The digest takes the domain's field list from the instance, not
    from the data: two types dictionaries that declare the same ["Agent"]
    fields give the same result, whatever they say about ["EIP712Domain"]. *)
Theorem digest_ignores_declared_domain_fields (self : KeyGenerator.t)
    (data types1 types2 : gmap string pyval) (w : world) :
  types1 !! "Agent" = types2 !! "Agent" ->
  encode_typed_data self (PDict (<["types" := PDict types1]> data)) w
  = encode_typed_data self (PDict (<["types" := PDict types2]> data)) w.
Proof.
  intros Hagent.
  assert (forall message u,
            KeyGenerator._encode_message keccak encode_typed self (PDict types1) message u
            = KeyGenerator._encode_message keccak encode_typed self (PDict types2) message u)
    as Hmessage.
  { intros message u. unfold KeyGenerator._encode_message, bind.
    cbn [getitem]. now rewrite Hagent. }
  unfold KeyGenerator.encode_typed_data, bind. cbn [getitem].
  rewrite !lookup_insert_eq.
  rewrite !(lookup_insert_ne _ "types" "domain") by discriminate.
  rewrite !(lookup_insert_ne _ "types" "message") by discriminate.
  destruct (data !! "domain") as [domain|]; [|reflexivity]. cbn [ret].
  destruct (KeyGenerator._encode_domain keccak encode_typed self domain w)
    as [[separator|e] u]; [|reflexivity].
  destruct (data !! "message") as [message|]; [|reflexivity]. cbn [ret].
  now rewrite Hmessage.
Qed.

(** X7.  What [prepare_eip712_data] returns, [encode_typed_data] accepts: on
    an instance as constructed no look-up fails, and whenever the encoder
    accepts the two field lists with their values the digest is
    keccak256 of 0x19 0x01, the hash of the encoded domain and the hash of
    the encoded message, whose expiry is the clock's second plus 86400. *)
Theorem prepared_data_is_encoded (url agent_address : string)
    (platform environment : option string) (w : world) (enc_d enc_m : bytes) :
  encode_typed KeyGenerator.domain_fields
    [PStr "LitLayer"; PStr "v1"; PInt 42161;
     PStr "0x0000000000000000000000000000000000000000";
     PStr "0x0000000000000000000000000000000000000000000000000000000000000000"]
  = Ok enc_d ->
  encode_typed KeyGenerator.agent_fields
    [PStr (default "Devnet" environment); PStr agent_address;
     PStr (default "turbox" platform); PInt (py_int (clock w) + 86400)]
  = Ok enc_m ->
  exists data,
    KeyGenerator.prepare_eip712_data (KeyGenerator.__init__ url) agent_address
      platform environment w = (Ok data, w)
    /\ encode_typed_data (KeyGenerator.__init__ url) data w
       = (Ok (keccak ([x19; x01] ++ keccak enc_d ++ keccak enc_m)), w).
Proof.
  intros Hd Hm. eexists. split; [reflexivity|].
  unfold KeyGenerator.encode_typed_data.
  erewrite bind_ok by (apply getitem_ok; reflexivity).
  erewrite bind_ok by
    (eapply (encode_domain_ok keccak encode_typed); try reflexivity; exact Hd).
  erewrite bind_ok by (apply getitem_ok; reflexivity).
  erewrite bind_ok by (apply getitem_ok; reflexivity).
  erewrite bind_ok by
    (eapply (encode_message_ok keccak encode_typed); try reflexivity; exact Hm).
  reflexivity.
Qed.

End EncoderMore.

Lemma digest_ignores_declared_domain_fields_witness :
  KeyGenerator.encode_typed_data Standin.keccak Standin.encode_typed
    (KeyGenerator.__init__ "https://api.litlayer.com")
    (PDict (<["types" := PDict (<["Agent" := KeyGenerator.agent_fields]>
                                 (<["EIP712Domain" := KeyGenerator.domain_fields]> ∅))]>
              (<["domain" := KeyGenerator.default_domain]>
              (<["message" := Standin.example_message]> ∅))))
    Standin.later
  = KeyGenerator.encode_typed_data Standin.keccak Standin.encode_typed
      (KeyGenerator.__init__ "https://api.litlayer.com")
      (PDict (<["types" := PDict (<["Agent" := KeyGenerator.agent_fields]>
                                   (<["EIP712Domain" := PList []]> ∅))]>
                (<["domain" := KeyGenerator.default_domain]>
                (<["message" := Standin.example_message]> ∅))))
      Standin.later.
Proof.
  apply (digest_ignores_declared_domain_fields Standin.keccak Standin.encode_typed).
  reflexivity.
Defined.

Lemma prepared_data_is_encoded_witness :
  exists data,
    KeyGenerator.prepare_eip712_data (KeyGenerator.__init__ "https://api.litlayer.com")
      "0xd28ac95d6D5Ba255816043200DD502A8EE5dD03C" None None Standin.later
    = (Ok data, Standin.later)
    /\ KeyGenerator.encode_typed_data Standin.keccak Standin.encode_typed
         (KeyGenerator.__init__ "https://api.litlayer.com") data Standin.later
       = (Ok (Standin.keccak
                ([x19; x01]
                 ++ Spec.hashStruct Standin.keccak Standin.encodeValue "EIP712Domain"
                      Standin.domain_schema Standin.domain_values
                 ++ Spec.hashStruct Standin.keccak Standin.encodeValue "Agent"
                      Standin.agent_schema
                      [PStr "Devnet"; PStr "0xd28ac95d6D5Ba255816043200DD502A8EE5dD03C";
                       PStr "turbox"; PInt 86401])), Standin.later).
Proof.
  apply (prepared_data_is_encoded Standin.keccak Standin.encode_typed
           "https://api.litlayer.com" "0xd28ac95d6D5Ba255816043200DD502A8EE5dD03C"
           None None Standin.later); reflexivity.
Defined.

(** ** Laws of the second monad *)

Section ProgLaws.

Context {S A B : Type}.

Lemma pbind_returned (m : Prog S A) (k : A -> Prog S B) (s s' : S) (a : A) :
  m s = (Returned a, s') -> pbind m k s = k a s'.
Proof. intros Hm. unfold pbind. now rewrite Hm. Qed.

Lemma pbind_raised (m : Prog S A) (k : A -> Prog S B) (s s' : S) (e : raised) :
  m s = (Raised e, s') -> pbind m k s = (Raised e, s').
Proof. intros Hm. unfold pbind. now rewrite Hm. Qed.

Lemma pbind_blocked (m : Prog S A) (k : A -> Prog S B) (s s' : S) :
  m s = (Blocked, s') -> pbind m k s = (Blocked, s').
Proof. intros Hm. unfold pbind. now rewrite Hm. Qed.

Lemma pbind_inv (m : Prog S A) (k : A -> Prog S B) (s s' : S) (b : B) :
  pbind m k s = (Returned b, s') ->
  exists a s1, m s = (Returned a, s1) /\ k a s1 = (Returned b, s').
Proof.
  unfold pbind. destruct (m s) as [[a|e|] s1]; intros Hk; try discriminate Hk.
  exists a, s1. split; [reflexivity | exact Hk].
Qed.

End ProgLaws.

Lemma process_eta (p : process) :
  {| machine := machine p; outbox := outbox p; network := network p |} = p.
Proof. destruct p. reflexivity. Qed.

Lemma from_M_run {A : Type} (m : M A) (p : process) (r : res A) (w' : world) :
  m (machine p) = (r, w') ->
  from_M m p = (of_res r, {| machine := w'; outbox := outbox p; network := network p |}).
Proof. intros Hm. unfold from_M. now rewrite Hm. Qed.

(** A method that leaves the world alone leaves the process alone. *)
Lemma from_M_pure {A : Type} (m : M A) (p : process) :
  pure m -> from_M m p = (of_res (m (machine p)).1, p).
Proof.
  intros Hpure. destruct (Hpure (machine p) (machine p)) as [_ Hsame].
  unfold from_M. destruct (m (machine p)) as [r w'] eqn:Hm. simpl in *. subst w'.
  now rewrite process_eta.
Qed.

(** ** Reading hexadecimal digits *)

Lemma fromhex_prefixed (s : string) : is_prefix "0x" s = true -> fromhex s = None.
Proof.
  destruct s as [|a [|b rest]]; cbn [is_prefix]; try discriminate.
  - rewrite andb_false_r. discriminate.
  - intros [Ha [Hb _]%andb_prop]%andb_prop.
    apply Ascii.eqb_eq in Ha, Hb. subst a b. reflexivity.
Qed.

Lemma fromhex_hex_of_byte (b : byte) (rest : string) :
  fromhex (Standin.hex_of_byte b +:+ rest) = cons b <$> fromhex rest.
Proof. destruct b; reflexivity. Qed.

Lemma hex_of_bytes_cons (b : byte) (data : bytes) :
  Standin.hex_of_bytes (b :: data)
  = Standin.hex_of_byte b +:+ Standin.hex_of_bytes data.
Proof. reflexivity. Qed.

(** Lower-case hexadecimal digits are read back as the bytes they render. *)
Lemma fromhex_hex_of_bytes (data : bytes) :
  fromhex (Standin.hex_of_bytes data) = Some data.
Proof.
  induction data as [|b data IH]; [reflexivity|].
  rewrite hex_of_bytes_cons, fromhex_hex_of_byte, IH. reflexivity.
Qed.

(** ** Signing *)

Section Signing.

Variable L : Library.t.

Local Abbreviation sign_eip712_data := (KeyGeneratorNet.sign_eip712_data L).
Local Abbreviation encode_typed_data :=
  (KeyGenerator.encode_typed_data (Library.keccak L) (Library.encode_typed L)).
Local Abbreviation generate_trading_key :=
  (KeyGenerator.generate_trading_key (Library.PrivateKey L) (Library.PrivateKey_new L)
     (Library.to_hex L)).

Lemma sign_bad_key (self : KeyGenerator.t) (data : pyval) (key : string) (p : process) :
  fromhex (drop2 key) = None ->
  sign_eip712_data self data key p
  = (Raised (ValueError "non-hexadecimal number found in fromhex() arg"), p).
Proof.
  intros Hbad. unfold KeyGeneratorNet.sign_eip712_data, pbind, plift, bytes_fromhex.
  now rewrite Hbad.
Qed.

Lemma sign_run (self : KeyGenerator.t) (data : pyval) (key : string) (p : process)
    (raw : bytes) (private_key : Library.PrivateKey L) :
  fromhex (drop2 key) = Some raw ->
  Library.PrivateKey_new L raw = Ok private_key ->
  sign_eip712_data self data key p
  = (match (encode_typed_data self data (machine p)).1 with
     | Ok digest =>
         match Library.sign_msg_hash L private_key digest with
         | Ok s => Returned (Library.signature_to_hex L s)
         | Raise e => Raised (Std e)
         end
     | Raise e => Raised (Std e)
     end, p).
Proof.
  intros Hraw Hkey.
  unfold KeyGeneratorNet.sign_eip712_data, pbind, plift, bytes_fromhex.
  rewrite Hraw, Hkey. cbn [of_res].
  rewrite (from_M_pure _ p (encode_typed_data_pure _ _ self data)).
  destruct (encode_typed_data self data (machine p)).1 as [digest|e]; cbn [of_res];
    [|reflexivity].
  destruct (Library.sign_msg_hash L private_key digest); reflexivity.
Qed.

(** X8.  [sign_eip712_data] returns a signature exactly when the key text
    after its first two characters reads as hexadecimal bytes, the key class
    accepts those bytes, the digest of the data is produced and the signer
    accepts it; the signature is then the signer's for that key and that
    digest, and the call changes nothing.  The key is read first: a key
    that is not hexadecimal is a [ValueError] whatever the data. *)
Theorem sign_returns_the_signature_of_the_digest (self : KeyGenerator.t)
    (data : pyval) (key signature : string) (p p' : process) :
  (sign_eip712_data self data key p = (Returned signature, p') <->
   exists raw private_key digest s,
     fromhex (drop2 key) = Some raw /\
     Library.PrivateKey_new L raw = Ok private_key /\
     encode_typed_data self data (machine p) = (Ok digest, machine p) /\
     Library.sign_msg_hash L private_key digest = Ok s /\
     signature = Library.signature_to_hex L s /\
     p' = p)
  /\ (fromhex (drop2 key) = None ->
      forall other : pyval,
        sign_eip712_data self other key p
        = (Raised (ValueError "non-hexadecimal number found in fromhex() arg"), p)).
Proof.
  split; [split|].
  - intros Hrun.
    destruct (fromhex (drop2 key)) as [raw|] eqn:Hraw;
      [|rewrite (sign_bad_key _ _ _ _ Hraw) in Hrun; discriminate Hrun].
    destruct (Library.PrivateKey_new L raw) as [private_key|e] eqn:Hkey.
    + rewrite (sign_run _ _ _ _ _ _ Hraw Hkey) in Hrun.
      destruct (encode_typed_data_pure (Library.keccak L) (Library.encode_typed L)
                  self data (machine p) (machine p)) as [_ Hsame].
      destruct (encode_typed_data self data (machine p)) as [[digest|e] w'] eqn:Hd;
        cbn [fst snd] in *; [|discriminate Hrun].
      destruct (Library.sign_msg_hash L private_key digest) as [s|e] eqn:Hs;
        [|discriminate Hrun].
      injection Hrun as <- <-. subst w'.
      exists raw, private_key, digest, s. repeat split; assumption.
    + unfold KeyGeneratorNet.sign_eip712_data, pbind, plift, bytes_fromhex in Hrun.
      rewrite Hraw, Hkey in Hrun. discriminate Hrun.
  - intros (raw & private_key & digest & s & Hraw & Hkey & Hd & Hs & -> & ->).
    rewrite (sign_run _ _ _ _ _ _ Hraw Hkey), Hd. cbn [fst]. now rewrite Hs.
  - intros Hbad other. apply (sign_bad_key _ _ _ _ Hbad).
Qed.

(** X9.  When the key class renders a key with [0x] in front of its digits,
    no key that [generate_trading_key] returns can be used to sign: the
    generated text starts with [0x0x], of which [sign_eip712_data] drops two
    characters only, and the call is a [ValueError] whatever the data. *)
Theorem prefixed_keys_cannot_sign (self self' : KeyGenerator.t)
    (agent_address key : string) (w w' : world) (data : pyval) (p : process) :
  (forall private_key, is_prefix "0x" (Library.to_hex L private_key) = true) ->
  generate_trading_key self agent_address w = (Ok key, w') ->
  sign_eip712_data self' data key p
  = (Raised (ValueError "non-hexadecimal number found in fromhex() arg"), p).
Proof.
  intros Hprefix Hkey. rewrite generate_trading_key_run in Hkey.
  destruct (Library.PrivateKey_new L (next_bytes 32 w)) as [private_key|e];
    [|discriminate Hkey].
  injection Hkey as <- _.
  apply sign_bad_key. apply fromhex_prefixed. apply Hprefix.
Qed.

(** X10.  When the key class renders a key as the plain hexadecimal digits
    of its bytes, a key that [generate_trading_key] returns signs as the key
    of the very 32 bytes that were drawn: the signature of the digest under
    that key, whenever the digest and the signature are produced. *)
Theorem generated_keys_sign_as_drawn (self self' : KeyGenerator.t)
    (agent_address key : string) (w w' : world) :
  (forall raw private_key,
     Library.PrivateKey_new L raw = Ok private_key ->
     fromhex (Library.to_hex L private_key) = Some raw) ->
  generate_trading_key self agent_address w = (Ok key, w') ->
  exists private_key,
    Library.PrivateKey_new L (next_bytes 32 w) = Ok private_key
    /\ forall (data : pyval) (p : process) (digest : bytes) (s : Library.Signature L),
         encode_typed_data self' data (machine p) = (Ok digest, machine p) ->
         Library.sign_msg_hash L private_key digest = Ok s ->
         sign_eip712_data self' data key p
         = (Returned (Library.signature_to_hex L s), p).
Proof.
  intros Hplain Hkey. rewrite generate_trading_key_run in Hkey.
  destruct (Library.PrivateKey_new L (next_bytes 32 w)) as [private_key|e] eqn:Hnew;
    [|discriminate Hkey].
  injection Hkey as <- _. exists private_key. split; [reflexivity|].
  intros data p digest s Hd Hs.
  rewrite (sign_run self' data _ p (next_bytes 32 w) private_key).
  - rewrite Hd. cbn [fst]. now rewrite Hs.
  - apply (Hplain _ _ Hnew).
  - exact Hnew.
Qed.

End Signing.

Lemma standin_keys_are_plain_hex (raw : bytes) (private_key : Standin.PrivateKey) :
  Standin.PrivateKey_new raw = Ok private_key ->
  fromhex (Standin.to_hex private_key) = Some raw.
Proof.
  unfold Standin.PrivateKey_new, Standin.to_hex.
  destruct ((1 <=? Spec.be_int raw) && (Spec.be_int raw <? Spec.secp256k1_n))%Z;
    [|discriminate].
  intros [= <-]. apply fromhex_hex_of_bytes.
Qed.

Lemma prefixed_keys_cannot_sign_witness :
  KeyGeneratorNet.sign_eip712_data Fixture.prefixed_library
    (KeyGenerator.__init__ "https://api.litlayer.com") Standin.example_data
    "0x0x0707070707070707070707070707070707070707070707070707070707070707"
    (Fixture.fresh_process Fixture.accepting)
  = (Raised (ValueError "non-hexadecimal number found in fromhex() arg"),
     Fixture.fresh_process Fixture.accepting).
Proof.
  apply (prefixed_keys_cannot_sign Fixture.prefixed_library
           (KeyGenerator.__init__ "https://api.litlayer.com")
           (KeyGenerator.__init__ "https://api.litlayer.com")
           "0xd28a" _ Standin.later (consume 32 Standin.later)).
  - intros private_key. reflexivity.
  - reflexivity.
Defined.

Lemma generated_keys_sign_as_drawn_witness :
  exists private_key,
    Standin.PrivateKey_new (next_bytes 32 Standin.later) = Ok private_key
    /\ forall (data : pyval) (p : process) (digest s : bytes),
         KeyGenerator.encode_typed_data Standin.keccak Standin.encode_typed
           (KeyGenerator.__init__ "https://api.litlayer.com") data (machine p)
         = (Ok digest, machine p) ->
         Fixture.sign_msg_hash private_key digest = Ok s ->
         KeyGeneratorNet.sign_eip712_data Fixture.library
           (KeyGenerator.__init__ "https://api.litlayer.com") data
           "0x0707070707070707070707070707070707070707070707070707070707070707" p
         = (Returned ("0x" +:+ Standin.hex_of_bytes s), p).
Proof.
  apply (generated_keys_sign_as_drawn Fixture.library
           (KeyGenerator.__init__ "https://api.litlayer.com")
           (KeyGenerator.__init__ "https://api.litlayer.com")
           "0xd28a" _ Standin.later (consume 32 Standin.later)).
  - exact standin_keys_are_plain_hex.
  - reflexivity.
Defined.

(** ** The exchange request *)

Section Exchange.

Variable L : Library.t.

Local Abbreviation error_message := (KeyGeneratorNet.error_message L).

Lemma error_message_detail (fallback prefix : string) (r : response)
    (d : gmap string pyval) (detail : pyval) :
  body r = Ok (PDict d) -> d !! "error" = Some detail ->
  error_message fallback prefix r = prefix +:+ Library.py_str L detail.
Proof.
  intros Hbody Herror. unfold KeyGeneratorNet.error_message.
  rewrite Hbody. cbn [of_res py_in subscript]. rewrite Herror.
  rewrite bool_decide_eq_true_2 by (now exists detail). reflexivity.
Qed.

Lemma error_message_fallback (fallback prefix : string) (r : response) :
  (forall d, body r = Ok (PDict d) -> d !! "error" = None) ->
  error_message fallback prefix r = fallback.
Proof.
  intros Hnone. unfold KeyGeneratorNet.error_message.
  destruct (body r) as [[|b|z|s|l|d]|e] eqn:Hbody; cbn [of_res py_in subscript];
    try reflexivity.
  - destruct (is_substring "error" s); reflexivity.
  - destruct (existsb (is_str "error") l); reflexivity.
  - rewrite (Hnone d eq_refl).
    rewrite bool_decide_eq_false_2; [reflexivity|].
    intros [x Hx]. discriminate Hx.
Qed.

(** X11.  [submit_exchange_request] sends exactly one POST to
    [<base_url>/v1/exchange], with the five fields and the API key, whatever
    comes back.  It returns a value only for a status 200, and the value is
    the JSON body; for any other status it raises an [Exception], whose
    message quotes the body's ["error"] entry when the body is a dictionary
    that has one and the response text otherwise, also when the body is not
    JSON at all. *)
Theorem exchange_request_outcome (self : KeyGenerator.t)
    (agent_address platform : string) (chain_id expiry_time : Z)
    (signature api_key : string) (p : process) :
  let sent :=
    {| method := "POST";
       url := KeyGenerator.base_url self +:+ "/v1/exchange";
       json := PDict (<["proxy_address" := PStr agent_address]>
                     (<["platform" := PStr platform]>
                     (<["chain_id" := PInt chain_id]>
                     (<["expiry_time" := PInt expiry_time]>
                     (<["signature" := PStr signature]> ∅)))));
       headers := PDict (<["Content-Type" := PStr "application/json"]>
                        (<["X-API-Key" := PStr api_key]> ∅)) |} in
  let run :=
    KeyGeneratorNet.submit_exchange_request L self agent_address platform chain_id
      expiry_time signature api_key p in
  run.2 = {| machine := machine p; outbox := outbox p ++ [sent]; network := network p |}
  /\ (forall v,
        run.1 = Returned v <->
        exists r, network p (outbox p) sent = Ok r /\ status_code r = 200%Z
                  /\ body r = Ok v)
  /\ (forall r,
        network p (outbox p) sent = Ok r -> status_code r ≠ 200%Z ->
        exists msg,
          run.1 = Raised (Exception msg)
          /\ (forall d detail,
                body r = Ok (PDict d) -> d !! "error" = Some detail ->
                msg = "Exchange request failed: " +:+ Library.py_str L detail)
          /\ ((forall d, body r = Ok (PDict d) -> d !! "error" = None) ->
              msg = "Failed to submit exchange request: " +:+ text r)).
Proof.
  intros sent run. subst run.
  unfold KeyGeneratorNet.submit_exchange_request, pbind, requests_post, requests_request.
  fold sent.
  destruct (network p (outbox p) sent) as [r|e] eqn:Hnet; cbn [of_res].
  - destruct (Z.eqb_spec (status_code r) 200) as [H200|H200]; cbn [negb].
    + split; [reflexivity|]. split.
      * intros v. unfold plift. cbn [fst]. split.
        -- intros Hv. exists r. repeat split; try assumption.
           destruct (body r); cbn [of_res] in Hv; [|discriminate Hv].
           now injection Hv as ->.
        -- intros (r' & [= <-] & _ & Hbody). now rewrite Hbody.
      * intros r' [= <-] Hne. contradiction.
    + split; [reflexivity|]. split.
      * intros v. unfold praise. cbn [fst]. split; [discriminate|].
        intros (r' & [= <-] & Hs & _). contradiction.
      * intros r' [= <-] _. eexists. split; [reflexivity|]. split.
        -- intros d detail Hbody Herror. apply (error_message_detail _ _ _ _ _ Hbody Herror).
        -- intros Hnone. apply (error_message_fallback _ _ _ Hnone).
  - split; [reflexivity|]. split.
    + intros v. cbn [fst]. split; [discriminate|]. intros (r & Hr & _). discriminate Hr.
    + intros r Hr. discriminate Hr.
Qed.

End Exchange.

(** ** The REST client *)

Section Client.

Variable L : Library.t.

Local Abbreviation generate_session := (LitLayerRestClient.generate_session L).
Local Abbreviation make_signed_request := (LitLayerRestClient.make_signed_request L).
Local Abbreviation sign_eip712_data := (KeyGeneratorNet.sign_eip712_data L).

(** Signing leaves the process as it is and never blocks. *)
Lemma sign_state (self : KeyGenerator.t) (data : pyval) (key : string) (p : process) :
  (sign_eip712_data self data key p).2 = p
  /\ (sign_eip712_data self data key p).1 ≠ Blocked.
Proof.
  destruct (fromhex (drop2 key)) as [raw|] eqn:Hraw.
  - destruct (Library.PrivateKey_new L raw) as [private_key|e] eqn:Hkey.
    + rewrite (sign_run L _ _ _ _ _ _ Hraw Hkey). split; [reflexivity|]. cbn [fst].
      destruct (KeyGenerator.encode_typed_data _ _ self data (machine p)).1;
        [|discriminate].
      destruct (Library.sign_msg_hash L private_key a); discriminate.
    + unfold KeyGeneratorNet.sign_eip712_data, pbind, plift, bytes_fromhex.
      rewrite Hraw, Hkey. split; [reflexivity | discriminate].
  - rewrite (sign_bad_key L _ _ _ _ Hraw). split; [reflexivity | discriminate].
Qed.

(** One call of [generate_session] in full. *)
Lemma generate_session_run (wallet agent : string) (c : LitLayerRestClient.t)
    (p : process) :
  generate_session wallet agent (c, p)
  = match Library.PrivateKey_new L (next_bytes 32 (machine p)) with
    | Raise e => (Raised (Std e), (c, after_draw p))
    | Ok private_key =>
        let key := "0x" +:+ Library.to_hex L private_key in
        let data := prepared (LitLayerRestClient.key_generator c) agent (machine p) in
        match (sign_eip712_data (LitLayerRestClient.key_generator c) data key
                 (after_draw p)).1 with
        | Returned signature =>
            (Returned (session_of wallet agent key data signature),
             (with_session (session_of wallet agent key data signature) c, after_draw p))
        | Raised e => (Raised e, (c, after_draw p))
        | Blocked => (Blocked, (c, after_draw p))
        end
    end.
Proof.
  unfold LitLayerRestClient.generate_session, pbind at 1. cbn [this fst snd].
  unfold pbind at 1. unfold in_process at 1, zoom. cbn [fst snd].
  erewrite from_M_run by apply generate_trading_key_run. fold (after_draw p).
  destruct (Library.PrivateKey_new L (next_bytes 32 (machine p))) as [private_key|e];
    cbn [of_res]; [|reflexivity].
  unfold pbind at 1. unfold in_process at 1, zoom. cbn [fst snd].
  erewrite from_M_run by reflexivity. cbn [of_res machine outbox network after_draw].
  fold (after_draw p).
  unfold pbind at 1. unfold in_process at 1, zoom. cbn [fst snd].
  change (KeyGenerator.prepare_eip712_data _ agent (Some "turbox") (Some "Devnet")
            (consume 32 (machine p))).1
    with (Ok (prepared (LitLayerRestClient.key_generator c) agent (machine p))).
  cbn [of_res].
  pose proof (sign_state (LitLayerRestClient.key_generator c)
                (prepared (LitLayerRestClient.key_generator c) agent (machine p))
                ("0x" +:+ Library.to_hex L private_key) (after_draw p)) as [Hstate _].
  destruct (sign_eip712_data _ _ _ (after_draw p)) as [[signature|e|] p2];
    cbn [fst snd] in *; subst p2; reflexivity.
Qed.

(** X12.  [generate_session] stores a session only when it has one: a call
    that raises leaves the client as it was, and a call that returns has
    stored the very dictionary it returns, which names the wallet and the
    agent it was given and holds a message for that agent that expires
    86400 seconds after the clock's second.  Either way the call draws 32
    bytes, sends nothing and never blocks. *)
Theorem generate_session_is_all_or_nothing (wallet agent : string)
    (c : LitLayerRestClient.t) (p : process) :
  let run := generate_session wallet agent (c, p) in
  run.2.2 = after_draw p
  /\ run.1 ≠ Blocked
  /\ (forall e, run.1 = Raised e -> run.2.1 = c)
  /\ (forall session,
        run.1 = Returned session ->
        run.2.1 = with_session session c
        /\ item session "wallet_address" = Some (PStr wallet)
        /\ item session "agent_address" = Some (PStr agent)
        /\ exists data message,
             item session "eip712_data" = Some data
             /\ item data "message" = Some message
             /\ item message "agentAddress" = Some (PStr agent)
             /\ item message "expiryTime"
                = Some (PInt (py_int (clock (machine p)) + 86400))).
Proof.
  intros run. subst run. rewrite generate_session_run.
  destruct (Library.PrivateKey_new L (next_bytes 32 (machine p))) as [private_key|e0].
  - cbn zeta.
    pose proof (sign_state (LitLayerRestClient.key_generator c)
                  (prepared (LitLayerRestClient.key_generator c) agent (machine p))
                  ("0x" +:+ Library.to_hex L private_key) (after_draw p)) as [_ Hblock].
    destruct (sign_eip712_data _ _ _ (after_draw p)).1 as [signature|e|];
      [| |contradiction].
    + split; [reflexivity|]. split; [discriminate|]. split; [discriminate|].
      intros session [= <-]. split; [reflexivity|].
      split; [reflexivity|]. split; [reflexivity|].
      eexists. eexists. repeat split.
    + split; [reflexivity|]. split; [discriminate|]. split; [reflexivity|].
      discriminate.
  - split; [reflexivity|]. split; [discriminate|]. split; [reflexivity|].
    discriminate.
Qed.

(** X13.  The wallet address is recorded and nothing more: with another
    wallet address the same call returns a session with the same trading
    key, the same signed data and the same signature, and leaves the same
    process. *)
Theorem session_does_not_depend_on_the_wallet (wallet1 wallet2 agent : string)
    (c : LitLayerRestClient.t) (p : process) :
  let run1 := generate_session wallet1 agent (c, p) in
  let run2 := generate_session wallet2 agent (c, p) in
  run1.2.2 = run2.2.2
  /\ (forall e, run1.1 = Raised e <-> run2.1 = Raised e)
  /\ (forall session1,
        run1.1 = Returned session1 ->
        exists session2,
          run2.1 = Returned session2
          /\ item session2 "wallet_address" = Some (PStr wallet2)
          /\ item session2 "trading_key" = item session1 "trading_key"
          /\ item session2 "eip712_data" = item session1 "eip712_data"
          /\ item session2 "signature" = item session1 "signature").
Proof.
  intros run1 run2. subst run1 run2. rewrite !generate_session_run.
  destruct (Library.PrivateKey_new L (next_bytes 32 (machine p))) as [private_key|e0].
  - cbn zeta.
    destruct (sign_eip712_data _ _ _ (after_draw p)).1 as [signature|e|].
    + split; [reflexivity|]. split; [intros e; split; discriminate|].
      intros session1 [= <-]. eexists. split; [reflexivity|]. repeat split.
    + split; [reflexivity|]. split; [intros e'; split; intros H; exact H|].
      discriminate.
    + split; [reflexivity|]. split; [intros e'; split; discriminate|].
      discriminate.
  - split; [reflexivity|]. split; [intros e'; split; intros H; exact H|].
    discriminate.
Qed.

(** X14.  Without an API key ([None] or the empty string) a signed request
    is refused before anything is sent: the call raises, and the client
    and the process are as they were. *)
Theorem no_api_key_no_request (method endpoint : string) (payload : pyval)
    (use_session : bool) (c : LitLayerRestClient.t) (p : process) :
  LitLayerRestClient.unset (LitLayerRestClient.api_key c) = true ->
  make_signed_request method endpoint payload use_session (c, p)
  = (Raised (Exception "API key not set"), (c, p)).
Proof.
  unfold LitLayerRestClient.unset, LitLayerRestClient.make_signed_request, pbind.
  cbn [this fst snd].
  destruct (LitLayerRestClient.api_key c) as [key|]; [|reflexivity].
  intros ->. reflexivity.
Qed.

Lemma truthy_holding (d : gmap string pyval) (k : string) (v : pyval) :
  d !! k = Some v -> truthy (PDict d) = true.
Proof.
  intros Hk. cbn [truthy]. destruct (size d) eqn:Hsize; [|reflexivity].
  apply map_size_empty_iff in Hsize. subst d. discriminate Hk.
Qed.

(** What a signed call does once the body of the request is settled. *)
Lemma signed_request_sends (method endpoint key : string) (given body : pyval)
    (use_session : bool) (c : LitLayerRestClient.t) (p : process) :
  LitLayerRestClient.api_key c = Some key -> key ≠ "" ->
  (if (use_session && truthy (LitLayerRestClient.session_data c))%bool
   then match subscript (LitLayerRestClient.session_data c) "signature" with
        | Returned signature => setitem given "signature" signature
        | Raised e => Raised e
        | Blocked => Blocked
        end
   else Returned given) = Returned body ->
  make_signed_request method endpoint given use_session (c, p)
  = (match network p (outbox p) (sent_request c key method endpoint body) with
     | Ok r =>
         if Z.eqb (status_code r) 200 then of_res (Http.body r)
         else Raised (Exception
                        (KeyGeneratorNet.error_message L
                           ("Request failed: " +:+ text r) "API error: " r))
     | Raise e => Raised (Std e)
     end,
     (c, after_sending (sent_request c key method endpoint body) p)).
Proof.
  intros Hkey Hne Hbody.
  unfold LitLayerRestClient.make_signed_request, pbind at 1. cbn [this fst snd].
  rewrite Hkey. apply String.eqb_neq in Hne. rewrite Hne.
  unfold pbind at 1.
  assert ((if (use_session && truthy (LitLayerRestClient.session_data c))%bool
           then let* signature :=
                  plift (subscript (LitLayerRestClient.session_data c) "signature") in
                plift (setitem given "signature" signature)
           else pret given) (c, p) = (Returned body, (c, p))) as ->.
  { destruct (use_session && truthy (LitLayerRestClient.session_data c))%bool.
    - unfold pbind, plift.
      destruct (subscript (LitLayerRestClient.session_data c) "signature");
        try discriminate Hbody. now rewrite Hbody.
    - unfold pret. now injection Hbody as ->. }
  unfold pbind, in_process, zoom, requests_request. cbn [fst snd].
  fold (sent_request c key method endpoint body).
  fold (after_sending (sent_request c key method endpoint body) p).
  destruct (network p (outbox p) (sent_request c key method endpoint body)) as [r|e];
    cbn [of_res]; [|reflexivity].
  destruct (Z.eqb (status_code r) 200); reflexivity.
Qed.

(** X15.  A signed call with an API key sends exactly one request, to
    [<base_url>/<endpoint>] with the key in its headers.  When the client
    holds a session the JSON sent is the payload with its ["signature"]
    set to the session's signature, overriding one the caller put there;
    without a session, or with [use_session] off, the payload goes out as
    given.  The call returns a value only when the request it sent is
    answered with status 200, and the value is that answer's JSON body. *)
Theorem signed_request_carries_the_session_signature (method endpoint key : string)
    (payload : gmap string pyval) (c : LitLayerRestClient.t) (p : process) :
  LitLayerRestClient.api_key c = Some key -> key ≠ "" ->
  (forall (session : gmap string pyval) (signature : pyval),
     LitLayerRestClient.session_data c = PDict session ->
     session !! "signature" = Some signature ->
     (make_signed_request method endpoint (PDict payload) true (c, p)).2
     = (c, after_sending
             (sent_request c key method endpoint
                (PDict (<["signature" := signature]> payload))) p))
  /\ (forall use_session,
        (use_session && truthy (LitLayerRestClient.session_data c))%bool = false ->
        (make_signed_request method endpoint (PDict payload) use_session (c, p)).2
        = (c, after_sending (sent_request c key method endpoint (PDict payload)) p))
  /\ (forall use_session v,
        (make_signed_request method endpoint (PDict payload) use_session (c, p)).1
        = Returned v ->
        exists sent r,
          (make_signed_request method endpoint (PDict payload) use_session (c, p)).2
          = (c, after_sending (sent_request c key method endpoint sent) p)
          /\ network p (outbox p) (sent_request c key method endpoint sent) = Ok r
          /\ status_code r = 200%Z
          /\ body r = Ok v).
Proof.
  intros Hkey Hne. split; [|split].
  - intros session signature Hsession Hsig.
    erewrite signed_request_sends; [reflexivity | exact Hkey | exact Hne |].
    rewrite Hsession, (truthy_holding _ _ _ Hsig). cbn [andb subscript].
    rewrite Hsig. reflexivity.
  - intros use_session Hoff.
    erewrite signed_request_sends; [reflexivity | exact Hkey | exact Hne |].
    now rewrite Hoff.
  - intros use_session v Hv.
    destruct (if (use_session && truthy (LitLayerRestClient.session_data c))%bool
              then match subscript (LitLayerRestClient.session_data c) "signature" with
                   | Returned signature => setitem (PDict payload) "signature" signature
                   | Raised e => Raised e
                   | Blocked => Blocked
                   end
              else Returned (PDict payload)) as [body|e|] eqn:Hbody.
    + rewrite (signed_request_sends _ _ _ _ _ _ _ _ Hkey Hne Hbody) in Hv |- *.
      cbn [fst snd] in Hv |- *.
      destruct (network p (outbox p) (sent_request c key method endpoint body))
        as [r|e] eqn:Hnet; [|discriminate Hv].
      exists body, r.
      destruct (Z.eqb_spec (status_code r) 200) as [H200|H200]; [|discriminate Hv].
      split; [reflexivity|]. split; [exact Hnet|]. split; [exact H200|].
      destruct (Http.body r); cbn [of_res] in Hv; [|discriminate Hv].
      now injection Hv as ->.
    + exfalso. revert Hv.
      unfold LitLayerRestClient.make_signed_request, pbind at 1. cbn [this fst snd].
      rewrite Hkey. apply String.eqb_neq in Hne. rewrite Hne.
      unfold pbind at 1.
      destruct (use_session && truthy (LitLayerRestClient.session_data c))%bool.
      * unfold pbind, plift.
        destruct (subscript (LitLayerRestClient.session_data c) "signature")
          as [signature|e0|].
        -- rewrite Hbody. discriminate.
        -- discriminate.
        -- discriminate.
      * discriminate Hbody.
    + exfalso.
      destruct (use_session && truthy (LitLayerRestClient.session_data c))%bool;
        [|discriminate Hbody].
      destruct (LitLayerRestClient.session_data c) as [|b|z|s|l|d];
        try discriminate Hbody.
      cbn [subscript] in Hbody. destruct (d !! "signature"); discriminate Hbody.
Qed.

End Client.

Lemma no_api_key_no_request_witness :
  LitLayerRestClient.make_signed_request Fixture.library "POST" "v1/order/create"
    (PDict ∅) true
    (LitLayerRestClient.__init__ None None, Fixture.fresh_process Fixture.accepting)
  = (Raised (Exception "API key not set"),
     (LitLayerRestClient.__init__ None None, Fixture.fresh_process Fixture.accepting)).
Proof.
  apply (no_api_key_no_request Fixture.library). reflexivity.
Defined.

Lemma signed_request_carries_the_session_signature_witness :
  (LitLayerRestClient.make_signed_request Fixture.library "POST" "v1/order/create"
     (PDict (<["signature" := PStr "forged"]> ∅)) true
     (Fixture.client_in_session, Fixture.fresh_process Fixture.accepting)).2
  = (Fixture.client_in_session,
     after_sending
       (sent_request Fixture.client_in_session "secret" "POST" "v1/order/create"
          (PDict (<["signature" := PStr "0x5157"]>
                 (<["signature" := PStr "forged"]> ∅))))
       (Fixture.fresh_process Fixture.accepting)).
Proof.
  refine (proj1 (signed_request_carries_the_session_signature Fixture.library
                   "POST" "v1/order/create" "secret" _ Fixture.client_in_session
                   _ _ _) _ _ eq_refl _).
  - reflexivity.
  - discriminate.
  - vm_compute. reflexivity.
Defined.

(** ** Orders and withdrawals *)

Section ClientCalls.

Variable L : Library.t.

Local Abbreviation make_signed_request := (LitLayerRestClient.make_signed_request L).
Local Abbreviation create_order := (LitLayerRestClient.create_order L).
Local Abbreviation submit_withdrawal := (LitLayerRestClient.submit_withdrawal L).

(** A signed call never waits on a lock and never changes the client. *)
Lemma signed_request_client (method endpoint : string) (payload : pyval)
    (use_session : bool) (c : LitLayerRestClient.t) (p : process) :
  exists o p',
    make_signed_request method endpoint payload use_session (c, p) = (o, (c, p'))
    /\ o ≠ Blocked.
Proof.
  unfold LitLayerRestClient.make_signed_request, pbind at 1. cbn [this fst snd].
  destruct (LitLayerRestClient.api_key c) as [key|];
    [|eexists; eexists; split; [reflexivity|discriminate]].
  destruct (String.eqb key "");
    [eexists; eexists; split; [reflexivity|discriminate]|].
  assert (forall body,
            exists o p',
              (let* response :=
                 in_process
                   (requests_request method
                      (LitLayerRestClient.base_url c +:+ "/" +:+ endpoint) body
                      (PDict (<["Content-Type" := PStr "application/json"]>
                             (<["X-API-Key" := PStr key]> ∅)))) in
               if negb (Z.eqb (status_code response) 200)
               then praise (Exception
                              (KeyGeneratorNet.error_message L
                                 ("Request failed: " +:+ text response)
                                 "API error: " response))
               else plift (of_res (Http.body response))) (c, p) = (o, (c, p'))
              /\ o ≠ Blocked) as Hsend.
  { intros body. unfold pbind, in_process, zoom, requests_request. cbn [fst snd].
    destruct (network p (outbox p) _) as [r|e]; cbn [of_res].
    - destruct (Z.eqb (status_code r) 200); cbn [negb].
      + unfold plift. eexists; eexists; split; [reflexivity|].
        destruct (Http.body r); discriminate.
      + eexists; eexists; split; [reflexivity|discriminate].
    - eexists; eexists; split; [reflexivity|discriminate]. }
  unfold pbind at 1.
  destruct (use_session && truthy (LitLayerRestClient.session_data c))%bool.
  - unfold pbind at 1, plift at 1.
    destruct (LitLayerRestClient.session_data c) as [|b|z|s|l|d]; cbn [subscript];
      try (eexists; eexists; split; [reflexivity|discriminate]).
    destruct (d !! "signature") as [signature|];
      [|eexists; eexists; split; [reflexivity|discriminate]].
    unfold plift.
    destruct payload as [|b|z|s|l|fields]; cbn [setitem];
      try (eexists; eexists; split; [reflexivity|discriminate]).
    apply Hsend.
  - unfold pret. apply Hsend.
Qed.

(** X16.  What goes out with an order and with a withdrawal, for a client
    that has an API key.  With a session, each of the two calls sends one
    POST to its endpoint whose JSON is the fields of the call and the
    session's signature: the same signature whatever the order or the
    withdrawal.  Without a session, as [__init__] leaves the client, the
    call is not refused: the fields go out with no signature at all. *)
Theorem orders_and_withdrawals_carry_the_session_signature (key : string)
    (c : LitLayerRestClient.t) (p : process) :
  LitLayerRestClient.api_key c = Some key -> key ≠ "" ->
  (forall (session : gmap string pyval) (signature : pyval)
          (token_in token_out amount_in min_amount_out : string) (is_market : bool),
     LitLayerRestClient.session_data c = PDict session ->
     session !! "signature" = Some signature ->
     (create_order token_in token_out amount_in min_amount_out is_market (c, p)).2
     = (c, after_sending
             (sent_request c key "POST" "v1/order/create"
                (PDict (<["signature" := signature]>
                       (<["token_in" := PStr token_in]>
                       (<["token_out" := PStr token_out]>
                       (<["amount_in" := PStr amount_in]>
                       (<["min_amount_out" := PStr min_amount_out]>
                       (<["is_market" := PBool is_market]> ∅))))))))
             p))
  /\ (forall (session : gmap string pyval) (signature : pyval)
             (token_address amount recipient_address : string),
        LitLayerRestClient.session_data c = PDict session ->
        session !! "signature" = Some signature ->
        (submit_withdrawal token_address amount recipient_address (c, p)).2
        = (c, after_sending
                (sent_request c key "POST" "v1/withdraw/submit"
                   (PDict (<["signature" := signature]>
                          (<["token_address" := PStr token_address]>
                          (<["amount" := PStr amount]>
                          (<["recipient_address" := PStr recipient_address]> ∅))))))
                p))
  /\ (forall (token_in token_out amount_in min_amount_out : string) (is_market : bool),
        LitLayerRestClient.session_data c = PNone ->
        (create_order token_in token_out amount_in min_amount_out is_market (c, p)).2
        = (c, after_sending
                (sent_request c key "POST" "v1/order/create"
                   (PDict (<["token_in" := PStr token_in]>
                          (<["token_out" := PStr token_out]>
                          (<["amount_in" := PStr amount_in]>
                          (<["min_amount_out" := PStr min_amount_out]>
                          (<["is_market" := PBool is_market]> ∅)))))))
                p)).
Proof.
  intros Hkey Hne. split; [|split].
  - intros session signature token_in token_out amount_in min_amount_out is_market
      Hsession Hsig.
    unfold LitLayerRestClient.create_order.
    erewrite signed_request_sends; [reflexivity | exact Hkey | exact Hne |].
    rewrite Hsession, (truthy_holding _ _ _ Hsig). cbn [andb subscript].
    rewrite Hsig. reflexivity.
  - intros session signature token_address amount recipient_address Hsession Hsig.
    unfold LitLayerRestClient.submit_withdrawal.
    erewrite signed_request_sends; [reflexivity | exact Hkey | exact Hne |].
    rewrite Hsession, (truthy_holding _ _ _ Hsig). cbn [andb subscript].
    rewrite Hsig. reflexivity.
  - intros token_in token_out amount_in min_amount_out is_market Hsession.
    unfold LitLayerRestClient.create_order.
    erewrite signed_request_sends; [reflexivity | exact Hkey | exact Hne |].
    rewrite Hsession. reflexivity.
Qed.

End ClientCalls.

Lemma orders_and_withdrawals_carry_the_session_signature_witness :
  (LitLayerRestClient.create_order Fixture.library "0x82aF" "0xFF97" "100" "99" false
     (Fixture.client, Fixture.fresh_process Fixture.refusing)).2
  = (Fixture.client,
     after_sending
       (sent_request Fixture.client "secret" "POST" "v1/order/create"
          (PDict (<["token_in" := PStr "0x82aF"]>
                 (<["token_out" := PStr "0xFF97"]>
                 (<["amount_in" := PStr "100"]>
                 (<["min_amount_out" := PStr "99"]>
                 (<["is_market" := PBool false]> ∅)))))))
       (Fixture.fresh_process Fixture.refusing)).
Proof.
  refine (proj2 (proj2 (orders_and_withdrawals_carry_the_session_signature
                          Fixture.library "secret" Fixture.client _ _ _))
            _ _ _ _ _ _).
  - reflexivity.
  - discriminate.
  - reflexivity.
Defined.

(** ** The auction's registration *)

Section Auction.

Variable L : Library.t.

Local Abbreviation register_mm_endpoint := (MMAuction.register_mm_endpoint L).

(** X17.  Nothing initialises the auction's session.  [__init__] leaves it
    [None], and no method of the client the auction holds changes it, the
    client's [generate_session] included, which stores the session in the
    client.  So on an auction as constructed, and on it after any call of
    its client, [register_mm_endpoint] raises its
    ["Session not initialized"] exception and sends nothing. *)
Theorem registration_finds_no_session (base_url api_key mm_endpoint : option string)
    (A : Type) (m : Prog LitLayerRestClient.state A)
    (agent_address endpoint : string) (p : process) :
  let fresh := (MMAuction.__init__ base_url api_key mm_endpoint, p) in
  let later := (MMAuction.in_client m fresh).2 in
  register_mm_endpoint agent_address endpoint fresh
  = (Raised (Exception "Session not initialized. Call generate_session first."), fresh)
  /\ register_mm_endpoint agent_address endpoint later
     = (Raised (Exception "Session not initialized. Call generate_session first."),
        later).
Proof.
  intros fresh later. split; [reflexivity|].
  subst later fresh. unfold MMAuction.in_client, zoom. cbn [fst snd].
  destruct (m _) as [o [c' p']]. reflexivity.
Qed.

(** X18.  On an auction whose own session was set from outside, the
    registration goes to [<client's base_url>/<agent_address>/register] in
    one POST, and what signs it is the client's session, not the auction's:
    with a session in the client its signature is added to the two fields,
    and with none in the client the two fields go out unsigned, whatever
    the auction's own session holds. *)
Theorem registration_is_signed_by_the_client (key agent_address endpoint : string)
    (a : MMAuction.t) (p : process) :
  truthy (MMAuction.session_data a) = true ->
  LitLayerRestClient.api_key (MMAuction.client a) = Some key -> key ≠ "" ->
  (forall (session : gmap string pyval) (signature : pyval),
     LitLayerRestClient.session_data (MMAuction.client a) = PDict session ->
     session !! "signature" = Some signature ->
     (register_mm_endpoint agent_address endpoint (a, p)).2
     = (a, after_sending
             (sent_request (MMAuction.client a) key "POST"
                (agent_address +:+ "/register")
                (PDict (<["signature" := signature]>
                       (<["mm_endpoint" := PStr endpoint]>
                       (<["agent_address" := PStr agent_address]> ∅)))))
             p))
  /\ (LitLayerRestClient.session_data (MMAuction.client a) = PNone ->
      (register_mm_endpoint agent_address endpoint (a, p)).2
      = (a, after_sending
              (sent_request (MMAuction.client a) key "POST"
                 (agent_address +:+ "/register")
                 (PDict (<["mm_endpoint" := PStr endpoint]>
                        (<["agent_address" := PStr agent_address]> ∅))))
              p)).
Proof.
  intros Hown Hkey Hne. split.
  - intros session signature Hsession Hsig.
    unfold MMAuction.register_mm_endpoint, pbind. cbn [this fst snd].
    rewrite Hown. cbn [negb]. unfold MMAuction.in_client, zoom. cbn [fst snd].
    erewrite (signed_request_sends L); [| exact Hkey | exact Hne |].
    + cbn [fst snd]. destruct a; reflexivity.
    + rewrite Hsession, (truthy_holding _ _ _ Hsig). cbn [andb subscript].
      rewrite Hsig. reflexivity.
  - intros Hsession.
    unfold MMAuction.register_mm_endpoint, pbind. cbn [this fst snd].
    rewrite Hown. cbn [negb]. unfold MMAuction.in_client, zoom. cbn [fst snd].
    erewrite (signed_request_sends L); [| exact Hkey | exact Hne |].
    + cbn [fst snd]. destruct a; reflexivity.
    + rewrite Hsession. reflexivity.
Qed.

End Auction.

Lemma registration_is_signed_by_the_client_witness :
  (MMAuction.register_mm_endpoint Fixture.library "0xd28a" "https://mm.example/auction"
     (Fixture.auction_in_session, Fixture.fresh_process Fixture.accepting)).2
  = (Fixture.auction_in_session,
     after_sending
       (sent_request Fixture.client "secret" "POST" "0xd28a/register"
          (PDict (<["mm_endpoint" := PStr "https://mm.example/auction"]>
                 (<["agent_address" := PStr "0xd28a"]> ∅))))
       (Fixture.fresh_process Fixture.accepting)).
Proof.
  refine (proj2 (registration_is_signed_by_the_client Fixture.library "secret"
                   "0xd28a" "https://mm.example/auction" Fixture.auction_in_session
                   _ _ _ _) _).
  - reflexivity.
  - reflexivity.
  - discriminate.
  - reflexivity.
Defined.

(** ** The order-book market maker *)

Lemma entries_del_absent (k : pyval) (d : list (pyval * pyval)) :
  entries_has k d = false -> entries_del k d = d.
Proof.
  unfold entries_has, entries_del. induction d as [|e d IH]; [reflexivity|].
  cbn [existsb]. intros H. apply orb_false_iff in H as [He Hd].
  rewrite filter_cons_True by (rewrite He; exact I). now rewrite IH.
Qed.

Lemma entries_del_has (k : pyval) (d : list (pyval * pyval)) :
  entries_has k (entries_del k d) = false.
Proof.
  unfold entries_has, entries_del. induction d as [|e d IH]; [reflexivity|].
  destruct (key_eqb k e.1) eqn:He.
  - rewrite filter_cons_False by (rewrite He; cbn; tauto). exact IH.
  - rewrite filter_cons_True by (rewrite He; exact I).
    cbn [existsb]. rewrite He. exact IH.
Qed.

Lemma entries_del_keeps (k : pyval) (d : list (pyval * pyval)) (e : pyval * pyval) :
  e ∈ entries_del k d <-> key_eqb k e.1 = false /\ e ∈ d.
Proof.
  unfold entries_del. rewrite list_elem_of_filter.
  destruct (key_eqb k e.1); cbn; intuition congruence.
Qed.

Lemma decimal_last_price : decimal "1800000000" = Some 1800000000%Z.
Proof. vm_compute. reflexivity. Qed.

Section MarketMaker.

Variable L : Library.t.

Local Abbreviation place_order := (OrderBookMM.place_order L).
Local Abbreviation cancel_order := OrderBookMM.cancel_order.
Local Abbreviation pending_order_round := (OrderBookMM.pending_order_round L).
Local Abbreviation cancel_order_round := (OrderBookMM.cancel_order_round L).
Local Abbreviation start := (OrderBookMM.start L).
Local Abbreviation stop := OrderBookMM.stop.

Lemma with_client_same (self : OrderBookMM.t) :
  OrderBookMM.with_client (OrderBookMM.client self) self = self.
Proof. destruct self; reflexivity. Qed.

(** One call of the client's [generate_session], as far as the client. *)
Lemma client_session_run (wallet agent : string) (c : LitLayerRestClient.t)
    (p : process) :
  exists o c',
    LitLayerRestClient.generate_session L wallet agent (c, p) = (o, (c', after_draw p))
    /\ o ≠ Blocked
    /\ (forall session, o = Returned session -> c' = with_session session c)
    /\ (forall e, o = Raised e -> c' = c).
Proof.
  rewrite generate_session_run.
  destruct (Library.PrivateKey_new L (next_bytes 32 (machine p))) as [private_key|e0].
  - cbn zeta.
    pose proof (sign_state L (LitLayerRestClient.key_generator c)
                  (prepared (LitLayerRestClient.key_generator c) agent (machine p))
                  ("0x" +:+ Library.to_hex L private_key) (after_draw p)) as [_ Hblock].
    destruct (KeyGeneratorNet.sign_eip712_data L _ _ _ (after_draw p)).1
      as [signature|e|]; [| |contradiction].
    + eexists. eexists. split; [reflexivity|]. split; [discriminate|].
      split; [|discriminate]. now intros session [= <-].
    + eexists. eexists. split; [reflexivity|]. split; [discriminate|].
      split; [discriminate|reflexivity].
  - eexists. eexists. split; [reflexivity|]. split; [discriminate|].
    split; [discriminate|reflexivity].
Qed.

(** X19.  The market maker's [generate_session] asks the client for a
    session only when both addresses are set: with the wallet or the agent
    address missing or empty it raises with nothing drawn and nothing
    changed.  Otherwise its outcome is the client's: a session that is
    returned is then held by the market maker and by its client alike, and
    a call that raises leaves the market maker as it was. *)
Theorem market_maker_session_is_the_client_session (self : OrderBookMM.t)
    (p : process) :
  let run := OrderBookMM.generate_session L (self, p) in
  ((LitLayerRestClient.unset (OrderBookMM.wallet_address self)
    || LitLayerRestClient.unset (OrderBookMM.agent_address self))%bool = true ->
   run = (Raised (Exception "Wallet address and agent address must be set"), (self, p)))
  /\ (forall wallet agent,
        OrderBookMM.wallet_address self = Some wallet -> wallet ≠ "" ->
        OrderBookMM.agent_address self = Some agent -> agent ≠ "" ->
        let inner :=
          LitLayerRestClient.generate_session L wallet agent
            (OrderBookMM.client self, p) in
        run.1 = inner.1
        /\ run.2.2 = inner.2.2
        /\ OrderBookMM.client run.2.1 = inner.2.1
        /\ (forall session,
              run.1 = Returned session ->
              OrderBookMM.session_data run.2.1 = session
              /\ LitLayerRestClient.session_data (OrderBookMM.client run.2.1) = session)
        /\ (forall e, run.1 = Raised e -> run.2.1 = self)).
Proof.
  intros run. subst run. split.
  - unfold OrderBookMM.generate_session, pbind. cbn [this fst snd].
    destruct (OrderBookMM.wallet_address self) as [wallet|],
             (OrderBookMM.agent_address self) as [agent|];
      cbn [LitLayerRestClient.unset]; try reflexivity.
    intros ->. reflexivity.
  - intros wallet agent Hwallet Hw Hagent Ha inner. subst inner.
    assert (OrderBookMM.generate_session L (self, p)
            = match LitLayerRestClient.generate_session L wallet agent
                      (OrderBookMM.client self, p) with
              | (Returned session, (c', p')) =>
                  (Returned session,
                   (OrderBookMM.with_session_data session
                      (OrderBookMM.with_client c' self), p'))
              | (Raised e, (c', p')) => (Raised e, (OrderBookMM.with_client c' self, p'))
              | (Blocked, (c', p')) => (Blocked, (OrderBookMM.with_client c' self, p'))
              end) as ->.
    { unfold OrderBookMM.generate_session, pbind at 1. cbn [this fst snd].
      rewrite Hwallet, Hagent.
      apply String.eqb_neq in Hw, Ha. rewrite Hw, Ha. cbn [orb].
      unfold pbind at 1. unfold OrderBookMM.in_client, zoom. cbn [fst snd].
      destruct (LitLayerRestClient.generate_session L wallet agent _)
        as [[session|e|] [c' p']]; reflexivity. }
    destruct (client_session_run wallet agent (OrderBookMM.client self) p)
      as (o & c' & -> & Hblock & Hreturned & Hraised).
    destruct o as [session|e|]; [| |contradiction]; cbn [fst snd].
    + rewrite (Hreturned session eq_refl).
      split; [reflexivity|]. split; [reflexivity|]. split; [reflexivity|].
      split; [|discriminate]. intros ? [= <-]. split; reflexivity.
    + rewrite (Hraised e eq_refl), with_client_same.
      split; [reflexivity|]. split; [reflexivity|]. split; [reflexivity|].
      split; [discriminate|reflexivity].
Qed.

(** X20.  [cancel_order] with the lock free and an identifier that can be a
    key: the answer is ["cancelled"] whether or not the order was known;
    afterwards no order is held under the identifier, every order held
    under another identifier is still held, the lock is free again and
    nothing was sent; and cancelling once more changes nothing. *)
Theorem cancel_order_forgets_the_order (order_id : pyval) (self : OrderBookMM.t)
    (p : process) :
  OrderBookMM._lock self = false -> hashable order_id = true ->
  let run := cancel_order order_id (self, p) in
  run = (Returned (PDict (<["status" := PStr "cancelled"]>
                         (<["order_id" := order_id]> ∅))),
         (OrderBookMM.with_active_orders
            (entries_del order_id (OrderBookMM.active_orders self)) self, p))
  /\ entries_has order_id (OrderBookMM.active_orders run.2.1) = false
  /\ (forall e,
        e ∈ OrderBookMM.active_orders run.2.1
        <-> key_eqb order_id e.1 = false /\ e ∈ OrderBookMM.active_orders self)
  /\ cancel_order order_id run.2 = run.
Proof.
  intros Hlock Hkey run.
  assert (forall self', OrderBookMM._lock self' = false ->
            cancel_order order_id (self', p)
            = (Returned (PDict (<["status" := PStr "cancelled"]>
                                (<["order_id" := order_id]> ∅))),
               (OrderBookMM.with_active_orders
                  (entries_del order_id (OrderBookMM.active_orders self')) self', p)))
    as Hrun.
  { intros self' Hfree.
    unfold OrderBookMM.cancel_order, pbind at 1, OrderBookMM.async_with_lock.
    cbn [fst snd]. rewrite Hfree. unfold pbind at 1. cbn [this fst snd].
    rewrite Hkey. cbn [negb].
    destruct self'; cbn in Hfree; subst.
    cbn [OrderBookMM.active_orders OrderBookMM.with_lock_held].
    destruct (entries_has order_id active_orders) eqn:Hhas.
    - reflexivity.
    - cbn. rewrite (entries_del_absent _ _ Hhas). reflexivity. }
  subst run. rewrite (Hrun self Hlock). cbn [fst snd].
  split; [reflexivity|]. split; [|split].
  - destruct self; apply entries_del_has.
  - intros e. destruct self; apply entries_del_keeps.
  - rewrite Hrun by exact Hlock.
    change (OrderBookMM.active_orders (OrderBookMM.with_active_orders ?d self)) with d.
    rewrite (entries_del_absent _ _ (entries_del_has _ _)).
    destruct self; reflexivity.
Qed.

(** [place_order] raises, and changes nothing of the market maker. *)
Lemma place_order_raises (token_in token_out amount_in min_amount_out : string)
    (is_market : bool) (self : OrderBookMM.t) (p : process) :
  exists e p',
    place_order token_in token_out amount_in min_amount_out is_market (self, p)
    = (Raised e, (self, p')).
Proof.
  unfold OrderBookMM.place_order, pbind, OrderBookMM.in_client, zoom,
    LitLayerRestClient.create_order. cbn [fst snd].
  destruct (signed_request_client L "POST" "v1/order/create"
              (PDict (<["token_in" := PStr token_in]>
                     (<["token_out" := PStr token_out]>
                     (<["amount_in" := PStr amount_in]>
                     (<["min_amount_out" := PStr min_amount_out]>
                     (<["is_market" := PBool is_market]> ∅))))))
              true (OrderBookMM.client self) p) as (o & p' & -> & Hblock).
  destruct o as [order|e|]; [| |contradiction]; cbn [fst snd];
    rewrite with_client_same; eexists; eexists; reflexivity.
Qed.

(** X21.  [place_order] never returns an order: every call raises, and
    leaves the market maker as it was.  That is so also when the exchange
    took the order: the request has gone out, the exchange has answered
    200 with a JSON body, and the call is a [TypeError], for the body is
    awaited and is no awaitable. *)
Theorem place_order_never_returns (token_in token_out amount_in min_amount_out : string)
    (is_market : bool) (self : OrderBookMM.t) (p : process) :
  let run := place_order token_in token_out amount_in min_amount_out is_market (self, p) in
  (exists e, run.1 = Raised e)
  /\ run.2.1 = self
  /\ (forall key session signature r v,
        let sent :=
          sent_request (OrderBookMM.client self) key "POST" "v1/order/create"
            (PDict (<["signature" := signature]>
                   (<["token_in" := PStr token_in]>
                   (<["token_out" := PStr token_out]>
                   (<["amount_in" := PStr amount_in]>
                   (<["min_amount_out" := PStr min_amount_out]>
                   (<["is_market" := PBool is_market]> ∅))))))) in
        LitLayerRestClient.api_key (OrderBookMM.client self) = Some key -> key ≠ "" ->
        LitLayerRestClient.session_data (OrderBookMM.client self) = PDict session ->
        session !! "signature" = Some signature ->
        network p (outbox p) sent = Ok r -> status_code r = 200%Z -> body r = Ok v ->
        run = (Raised (Std (TypeError "object can't be used in 'await' expression")),
               (self, after_sending sent p))).
Proof.
  intros run. subst run.
  destruct (place_order_raises token_in token_out amount_in min_amount_out is_market
              self p) as (e & p' & Hrun).
  split; [exists e; now rewrite Hrun|]. split; [now rewrite Hrun|].
  clear e p' Hrun.
  intros key session signature r v sent Hkey Hne Hsession Hsig Hnet H200 Hbody.
  unfold OrderBookMM.place_order, pbind, OrderBookMM.in_client, zoom,
    LitLayerRestClient.create_order. cbn [fst snd].
  erewrite (signed_request_sends L); [| exact Hkey | exact Hne |]; cycle 1.
  - rewrite Hsession, (truthy_holding _ _ _ Hsig). cbn [andb subscript].
    rewrite Hsig. reflexivity.
  - cbn [setitem]. fold sent. rewrite Hnet, H200, Hbody. cbn [Z.eqb of_res fst snd].
    rewrite with_client_same. reflexivity.
Qed.

Lemma get_market_data_run (self : OrderBookMM.t) (p : process) :
  exists data,
    OrderBookMM.get_market_data (self, p) = (Returned data, (self, p))
    /\ OrderBookMM.last_price data = "1800000000".
Proof.
  unfold OrderBookMM.get_market_data, pbind, in_process, zoom, from_M, time_time.
  cbn [fst snd of_res]. rewrite process_eta. eexists. split; reflexivity.
Qed.

(** X22.  A round of the pending-order loop never records an order.  Its
    one statement that adds to [active_orders] comes after [place_order],
    which never returns, and the exception is swallowed by the round's
    [except]: so a round never raises, leaves [active_orders] and the lock
    as they were, and returns when the lock was free. *)
Theorem pending_round_records_no_order (self : OrderBookMM.t) (p : process) :
  let run := pending_order_round (self, p) in
  (forall e, run.1 ≠ Raised e)
  /\ OrderBookMM.active_orders run.2.1 = OrderBookMM.active_orders self
  /\ OrderBookMM._lock run.2.1 = OrderBookMM._lock self
  /\ (OrderBookMM._lock self = false -> run.1 = Returned tt).
Proof.
  intros run.
  assert (exists o self' p',
            run = (o, (self', p'))
            /\ (forall e, o ≠ Raised e)
            /\ OrderBookMM.active_orders self' = OrderBookMM.active_orders self
            /\ OrderBookMM._lock self' = OrderBookMM._lock self
            /\ (OrderBookMM._lock self = false -> o = Returned tt))
    as (o & self' & p' & -> & H); [|exact H].
  subst run.
  destruct self as [bu ak wa aa oc pi ci cl sd ao md inv rn pt ct lk].
  unfold OrderBookMM.pending_order_round, try_except.
  destruct oc as [config|].
  - erewrite pbind_returned by reflexivity.
    erewrite pbind_returned by reflexivity.
    match goal with
    | |- context [pbind OrderBookMM.get_market_data _ (?s, ?q)] =>
        destruct (get_market_data_run s q) as (data & Hdata & Hprice)
    end.
    erewrite pbind_returned by exact Hdata.
    erewrite pbind_returned by reflexivity.
    unfold OrderBookMM.async_with_lock. cbn [fst snd].
    cbn [OrderBookMM._lock OrderBookMM.with_market_data OrderBookMM.with_inventory].
    destruct lk.
    + do 3 eexists. split; [reflexivity|]. cbn.
      repeat split; try discriminate.
    + erewrite pbind_returned by reflexivity.
      erewrite pbind_returned by reflexivity.
      match goal with
      | |- context [if ?below then _ else pret tt] => destruct below
      end.
      * erewrite pbind_returned by reflexivity.
        cbn [OrderBookMM.market_data]. rewrite Hprice.
        erewrite pbind_returned
          by (unfold plift, Library.int_of_str; rewrite decimal_last_price; reflexivity).
        match goal with
        | |- context [pbind (OrderBookMM.place_order L ?a ?b ?c ?d ?f) _ (?x, ?q)] =>
            destruct (place_order_raises a b c d f x q) as (e & q' & Hplace)
        end.
        erewrite pbind_raised by exact Hplace.
        do 3 eexists. split; [reflexivity|]. cbn.
        repeat split; try discriminate.
      * do 3 eexists. split; [reflexivity|]. cbn.
        repeat split; try discriminate.
  - do 3 eexists. split; [reflexivity|]. cbn.
    repeat split; try discriminate.
Qed.

(** A loop whose body leaves a state as it is leaves it as it is. *)
Lemma for_each_state {X : Type} (items : list X)
    (body : X -> Prog OrderBookMM.state unit) (s : OrderBookMM.state) :
  (forall x, exists o, body x s = (o, s)) ->
  exists o, OrderBookMM.for_each items body s = (o, s).
Proof.
  intros Hbody. induction items as [|x rest IH]; cbn [OrderBookMM.for_each].
  - eexists. reflexivity.
  - destruct (Hbody x) as ([[]|e|] & Hx).
    + erewrite pbind_returned by exact Hx. exact IH.
    + erewrite pbind_raised by exact Hx. eexists. reflexivity.
    + erewrite pbind_blocked by exact Hx. eexists. reflexivity.
Qed.

(** With the lock held, cancelling waits for it. *)
Lemma cancel_order_waits (order_id : pyval) (self : OrderBookMM.t) (p : process) :
  OrderBookMM._lock self = true ->
  cancel_order order_id (self, p) = (Blocked, (self, p)).
Proof.
  intros Hheld. unfold OrderBookMM.cancel_order, pbind, OrderBookMM.async_with_lock.
  cbn [fst snd]. now rewrite Hheld.
Qed.

(** X23.  A round of the cancel loop never removes an order, never raises
    and sends nothing.  Started with the lock free, it ends in one of two
    ways: it returns with the lock free again, or it is left waiting with
    the lock still held. *)
Theorem cancel_round_cancels_nothing (self : OrderBookMM.t) (p : process) :
  let run := cancel_order_round (self, p) in
  (forall e, run.1 ≠ Raised e)
  /\ OrderBookMM.active_orders run.2.1 = OrderBookMM.active_orders self
  /\ run.2.2 = p
  /\ (OrderBookMM._lock self = false ->
      (run.1 = Returned tt /\ OrderBookMM._lock run.2.1 = false)
      \/ (run.1 = Blocked /\ OrderBookMM._lock run.2.1 = true)).
Proof.
  intros run.
  assert (exists o self',
            run = (o, (self', p))
            /\ (forall e, o ≠ Raised e)
            /\ OrderBookMM.active_orders self' = OrderBookMM.active_orders self
            /\ (OrderBookMM._lock self = false ->
                (o = Returned tt /\ OrderBookMM._lock self' = false)
                \/ (o = Blocked /\ OrderBookMM._lock self' = true)))
    as (o & self' & -> & Hraise & Horders & Hlock).
  2: { split; [exact Hraise|]. split; [exact Horders|]. split; [reflexivity|exact Hlock]. }
  subst run.
  destruct self as [bu ak wa aa oc pi ci cl sd ao md inv rn pt ct lk].
  unfold OrderBookMM.cancel_order_round, try_except.
  match goal with
  | |- context [pbind OrderBookMM.get_market_data _ (?s, ?q)] =>
      destruct (get_market_data_run s q) as (data & Hdata & Hprice)
  end.
  erewrite pbind_returned by exact Hdata.
  erewrite pbind_returned by reflexivity.
  unfold OrderBookMM.async_with_lock. cbn [fst snd].
  cbn [OrderBookMM._lock OrderBookMM.with_market_data].
  destruct lk.
  - do 2 eexists. split; [reflexivity|]. cbn.
    repeat split; try discriminate.
  - erewrite pbind_returned by reflexivity.
    match goal with
    | |- context [OrderBookMM.for_each ?items ?body ?s] =>
        destruct (for_each_state items body s) as (o & ->)
    end.
    { intros entry. unfold pbind at 1, plift at 1.
      destruct (dict_get entry.2 "price" (PInt 0)) as [quoted|e|];
        [|eexists; reflexivity..].
      unfold pbind at 1, plift at 1.
      destruct (Library.int_of L quoted) as [order_price|e|];
        [|eexists; reflexivity..].
      erewrite pbind_returned by reflexivity.
      unfold pbind at 1, plift at 1.
      destruct (Library.int_of_str L _) as [current_price|e|];
        [|eexists; reflexivity..].
      unfold pbind at 1, plift at 1.
      destruct (Library.moved_2_percent L order_price current_price) as [[|]|e|];
        [| eexists; reflexivity..].
      erewrite pbind_blocked by (apply cancel_order_waits; reflexivity).
      eexists. reflexivity. }
    destruct o as [[]|e|]; do 2 eexists; (split; [reflexivity|]); cbn;
      repeat split; try discriminate; intros _; [left|left|right]; split; reflexivity.
Qed.

(** X24.  When the first active order's price has moved by more than the
    2% of the test against the last price, 1800000000, the round calls
    [cancel_order] while it holds the lock that [cancel_order] takes: the
    round waits on its own lock, which stays held, and the order stays
    active. *)
Theorem cancel_round_waits_on_its_own_lock (self : OrderBookMM.t) (p : process)
    (order_id order : pyval) (rest : list (pyval * pyval)) (quoted : pyval)
    (order_price : Z) :
  OrderBookMM._lock self = false ->
  OrderBookMM.active_orders self = (order_id, order) :: rest ->
  dict_get order "price" (PInt 0) = Returned quoted ->
  Library.int_of L quoted = Returned order_price ->
  Library.moved_2_percent L order_price 1800000000 = Returned true ->
  let run := cancel_order_round (self, p) in
  run.1 = Blocked
  /\ OrderBookMM._lock run.2.1 = true
  /\ OrderBookMM.active_orders run.2.1 = OrderBookMM.active_orders self.
Proof.
  intros Hfree Horders Hquoted Hprice Hmoved run.
  assert (exists self',
            run = (Blocked, (self', p))
            /\ OrderBookMM._lock self' = true
            /\ OrderBookMM.active_orders self' = OrderBookMM.active_orders self)
    as (self' & -> & H); [|split; [reflexivity|exact H]].
  subst run.
  destruct self as [bu ak wa aa oc pi ci cl sd ao md inv rn pt ct lk].
  cbn [OrderBookMM._lock OrderBookMM.active_orders] in Hfree, Horders. subst lk ao.
  unfold OrderBookMM.cancel_order_round, try_except.
  match goal with
  | |- context [pbind OrderBookMM.get_market_data _ (?s, ?q)] =>
      destruct (get_market_data_run s q) as (data & Hdata & Hlast)
  end.
  erewrite pbind_returned by exact Hdata.
  erewrite pbind_returned by reflexivity.
  unfold OrderBookMM.async_with_lock. cbn [fst snd].
  cbn [OrderBookMM._lock OrderBookMM.with_market_data].
  erewrite pbind_returned by reflexivity.
  cbn [fst OrderBookMM.active_orders OrderBookMM.with_lock_held
       OrderBookMM.with_market_data OrderBookMM.for_each].
  erewrite pbind_blocked; cycle 1.
  - cbn [fst snd].
    erewrite pbind_returned by (unfold plift; rewrite Hquoted; reflexivity).
    erewrite pbind_returned by (unfold plift; rewrite Hprice; reflexivity).
    erewrite pbind_returned by reflexivity.
    cbn [OrderBookMM.market_data]. rewrite Hlast.
    erewrite pbind_returned
      by (unfold plift, Library.int_of_str; rewrite decimal_last_price; reflexivity).
    erewrite pbind_returned by (unfold plift; rewrite Hmoved; reflexivity).
    cbv iota.
    erewrite pbind_blocked by (apply cancel_order_waits; reflexivity).
    reflexivity.
  - eexists. split; [reflexivity|]. split; reflexivity.
Qed.

(** The market maker's [generate_session], as far as [start] needs it. *)
Lemma market_maker_session_run (self : OrderBookMM.t) (p : process) :
  exists o self' p',
    OrderBookMM.generate_session L (self, p) = (o, (self', p'))
    /\ o ≠ Blocked
    /\ OrderBookMM.pending_order_task self' = OrderBookMM.pending_order_task self
    /\ OrderBookMM.cancel_order_task self' = OrderBookMM.cancel_order_task self.
Proof.
  unfold OrderBookMM.generate_session, pbind at 1. cbn [this fst snd].
  destruct (OrderBookMM.wallet_address self) as [wallet|];
    [|do 3 eexists; split; [reflexivity|]; split; [discriminate|split; reflexivity]].
  destruct (OrderBookMM.agent_address self) as [agent|];
    [|do 3 eexists; split; [reflexivity|]; split; [discriminate|split; reflexivity]].
  destruct (String.eqb wallet "" || String.eqb agent "")%bool;
    [do 3 eexists; split; [reflexivity|]; split; [discriminate|split; reflexivity]|].
  unfold pbind at 1. unfold OrderBookMM.in_client, zoom. cbn [fst snd].
  destruct (client_session_run wallet agent (OrderBookMM.client self) p)
    as (o & c' & -> & Hblock & _).
  destruct o as [session|e|]; [| |contradiction];
    do 3 eexists; (split; [reflexivity|]); (split; [discriminate|]);
    destruct self; split; reflexivity.
Qed.

Lemma stop_run (self : OrderBookMM.t) (p : process) :
  OrderBookMM.pending_order_task self = PNone ->
  OrderBookMM.cancel_order_task self = PNone ->
  stop (self, p) = (Returned tt, (OrderBookMM.with_running false self, p)).
Proof.
  intros Hpending Hcancel. destruct self. cbn in Hpending, Hcancel. subst.
  reflexivity.
Qed.

(** X25.  [start] never returns: the attribute [pending_order_task] it
    calls is the value [__init__] stored, not the method, and the call is a
    [TypeError] unless an exception of [generate_session] came first.  With
    a session already there the exception is that [TypeError], raised after
    [running] was set; no task is ever stored, so a [stop] that follows
    finds none, returns and clears [running]. *)
Theorem start_never_returns (self : OrderBookMM.t) (p : process) :
  let run := start (self, p) in
  (exists e, run.1 = Raised e)
  /\ OrderBookMM.pending_order_task run.2.1 = OrderBookMM.pending_order_task self
  /\ OrderBookMM.cancel_order_task run.2.1 = OrderBookMM.cancel_order_task self
  /\ (truthy (OrderBookMM.session_data self) = true ->
      run = (Raised (Std (TypeError "object is not callable")),
             (OrderBookMM.with_running true self, p)))
  /\ (OrderBookMM.pending_order_task self = PNone ->
      OrderBookMM.cancel_order_task self = PNone ->
      stop run.2 = (Returned tt, (OrderBookMM.with_running false run.2.1, run.2.2))).
Proof.
  intros run.
  assert (exists e self' p',
            run = (Raised e, (self', p'))
            /\ OrderBookMM.pending_order_task self' = OrderBookMM.pending_order_task self
            /\ OrderBookMM.cancel_order_task self' = OrderBookMM.cancel_order_task self
            /\ (truthy (OrderBookMM.session_data self) = true ->
                e = Std (TypeError "object is not callable")
                /\ self' = OrderBookMM.with_running true self /\ p' = p))
    as (e & self' & p' & -> & Hpending & Hcancel & Hsession).
  2: { cbn [fst snd]. split; [now exists e|]. split; [exact Hpending|].
       split; [exact Hcancel|]. split.
       - intros Htruthy. destruct (Hsession Htruthy) as (-> & -> & ->). reflexivity.
       - intros Hp Hc. apply stop_run; congruence. }
  subst run. unfold OrderBookMM.start, pbind at 1. cbn [this fst snd].
  destruct (truthy (OrderBookMM.session_data self)); cbn [negb].
  - do 3 eexists. split; [reflexivity|]. cbn.
    split; [destruct self; reflexivity|]. split; [destruct self; reflexivity|].
    intros _. repeat split.
  - unfold pbind at 1. unfold pbind at 1.
    destruct (market_maker_session_run self p)
      as (o & self' & p' & -> & Hblock & Hpending & Hcancel).
    destruct o as [session|e|]; [| |contradiction].
    + do 3 eexists. split; [reflexivity|]. cbn.
      split; [destruct self'; exact Hpending|].
      split; [destruct self'; exact Hcancel|]. discriminate.
    + do 3 eexists. split; [reflexivity|].
      split; [exact Hpending|]. split; [exact Hcancel|]. discriminate.
Qed.

End MarketMaker.

Lemma cancel_order_forgets_the_order_witness :
  entries_has (PStr "7")
    (OrderBookMM.active_orders
       (OrderBookMM.cancel_order (PStr "7")
          (Fixture.market_maker_with_order,
           Fixture.fresh_process Fixture.accepting)).2.1)
  = false.
Proof.
  refine (proj1 (proj2 (cancel_order_forgets_the_order (PStr "7")
                          Fixture.market_maker_with_order
                          (Fixture.fresh_process Fixture.accepting) _ _))).
  - reflexivity.
  - reflexivity.
Defined.

Lemma cancel_round_waits_on_its_own_lock_witness :
  (OrderBookMM.cancel_order_round Fixture.library
     (Fixture.market_maker_with_order, Fixture.fresh_process Fixture.accepting)).1
  = Blocked.
Proof.
  refine (proj1 (cancel_round_waits_on_its_own_lock Fixture.library
                   Fixture.market_maker_with_order
                   (Fixture.fresh_process Fixture.accepting)
                   (PStr "7") (PDict (<["order_id" := PStr "7"]> ∅)) [] (PInt 0) 0%Z
                   _ _ _ _ _)).
  - reflexivity.
  - reflexivity.
  - vm_compute. reflexivity.
  - reflexivity.
  - vm_compute. reflexivity.
Defined.
